(** * ciel: packaging and publishing of a built PDK version

    A shallow embedding of [push] from [ciel/build/__init__.py]: the
    partition of a version directory into collections, the per-collection
    tarballs, and the sequential upload of the tarballs with [ghr].

    Paths are Python [str] values, modelled as [string]; the helpers of
    [os.path] that [push] calls are modelled on strings after CPython's
    [posixpath].  A version directory is the enumeration that
    [pathlib.Path.glob] yields for it. *)

From Stdlib Require Import List String Ascii Bool Arith Lia Permutation.
From Stdlib Require Import Strings.Byte.
From Stdlib Require Import ZArith DecimalString.
Import ListNotations.
Open Scope string_scope.
Open Scope list_scope.

(** ** [os.path] on POSIX *)

Module OsPath.

(** [os.sep], [os.curdir], [os.pardir] *)
Definition sep_char : ascii := "/"%char.
Definition sep : string := "/".
Definition curdir : string := ".".
Definition pardir : string := "..".

(** [s.split(os.sep)]: the separator is one character; the result is never
    empty, and has one more element than [s] has separators. *)
Fixpoint split (s : string) : list string :=
  match s with
  | EmptyString => [EmptyString]
  | String c s' =>
      if Ascii.eqb c sep_char then EmptyString :: split s'
      else match split s' with
           | [] => [String c EmptyString]
           | w :: ws => String c w :: ws
           end
  end.

Definition startswith_sep (s : string) : bool :=
  match s with
  | String c _ => Ascii.eqb c sep_char
  | EmptyString => false
  end.

Fixpoint endswith_sep (s : string) : bool :=
  match s with
  | EmptyString => false
  | String c EmptyString => Ascii.eqb c sep_char
  | String _ s' => endswith_sep s'
  end.

Definition is_empty (s : string) : bool :=
  match s with EmptyString => true | _ => false end.

(** One round of the loop of [posixpath.join(a, *p)]: an absolute [b]
    replaces the path built so far, otherwise [b] is appended, with a
    separator unless the path is empty or already ends with one. *)
Definition join_step (path b : string) : string :=
  if startswith_sep b then b
  else if is_empty path || endswith_sep path then path ++ b
  else path ++ sep ++ b.

Definition join (a : string) (p : list string) : string :=
  fold_left join_step p a.

(** [os.path.commonprefix] on two lists of components. *)
Fixpoint commonprefix (a b : list string) : list string :=
  match a, b with
  | x :: a', y :: b' => if String.eqb x y then x :: commonprefix a' b' else []
  | _, _ => []
  end.

(** [[x for x in p.split(sep) if x]] *)
Definition components (p : string) : list string :=
  filter (fun x => negb (is_empty x)) (split p).

(** [posixpath.relpath(path, start)].  [abspath], which also puts a path
    in normal form, is left out: in both calls of [push], [path] is
    [start] followed by names of directory entries, so [abspath] puts
    the same components in front of both lists, and leaves the names as
    they are.  [path] is never empty in [push], so
    the [ValueError] for an empty path is left out too. *)
Definition relpath (path start : string) : string :=
  let start_list := components start in
  let path_list := components path in
  let i := List.length (commonprefix start_list path_list) in
  let rel_list := repeat pardir (List.length start_list - i) ++ skipn i path_list in
  match rel_list with
  | [] => curdir
  | a :: p => join a p
  end.

Fixpoint sep_free (s : string) : bool :=
  match s with
  | EmptyString => true
  | String c s' => negb (Ascii.eqb c sep_char) && sep_free s'
  end.

(** The name of a directory entry: not empty, no separator inside, and
    neither [curdir] nor [pardir]. *)
Definition file_name (s : string) : bool :=
  negb (is_empty s) && sep_free s
  && negb (String.eqb s curdir) && negb (String.eqb s pardir).

End OsPath.

(** ** Python values used by [push] *)

Module Py.

(** The exceptions that leave [push]. *)
Inductive exn : Type :=
| KeyError (key : string)
| TypeError (msg : string)
| FileNotFoundError (msg : string)
| IndexError
| CalledProcessError (returncode : nat) (cmd : list string).

Inductive result (A : Type) : Type :=
| Ok (a : A)
| Raise (e : exn).
Arguments Ok {A} a.
Arguments Raise {A} e.

Definition rbind {A B : Type} (r : result A) (k : A -> result B) : result B :=
  match r with
  | Ok a => k a
  | Raise e => Raise e
  end.

(** [l[i]] for a non-negative literal [i] *)
Definition index {A : Type} (l : list A) (i : nat) : result A :=
  match nth_error l i with
  | Some x => Ok x
  | None => Raise IndexError
  end.

(** A [dict] with [str] keys: insertion-ordered, one entry per key. *)
Definition dict (V : Type) : Type := list (string * V).

Fixpoint get {V : Type} (d : dict V) (k : string) : option V :=
  match d with
  | [] => None
  | (k', v) :: d' => if String.eqb k k' then Some v else get d' k
  end.

(** [d[k] = v]: an existing key keeps its place, a new key goes last. *)
Fixpoint set {V : Type} (d : dict V) (k : string) (v : V) : dict V :=
  match d with
  | [] => [(k, v)]
  | (k', v') :: d' =>
      if String.eqb k k' then (k', v) :: d' else (k', v') :: set d' k v
  end.

(** [d[k]] *)
Definition getitem {V : Type} (d : dict V) (k : string) : result V :=
  match get d k with
  | Some v => Ok v
  | None => Raise (KeyError k)
  end.

(** [d.get(k) or []]: an absent key and an empty list both give a new
    empty list. *)
Definition get_or_empty {A : Type} (d : dict (list A)) (k : string) : list A :=
  match get d k with
  | Some (x :: l) => x :: l
  | Some [] => []
  | None => []
  end.

(** [d[k].append(x)] *)
Definition append_to {A : Type} (d : dict (list A)) (k : string) (x : A)
  : result (dict (list A)) :=
  rbind (getitem d k) (fun l => Ok (set d k (l ++ [x]))).

(** [x in s] for a [set] of [str] *)
Definition mem (x : string) (s : list string) : bool :=
  existsb (String.eqb x) s.

End Py.

(** ** [ciel.build.push] *)

Module Build.
Import Py.

(** [ciel.families.Family], as far as [push] reads it. *)
Record Family : Type := {
  all_libraries : list string;
  repo : string
}.

(** What [os.lstat] tells [tarfile] about a path that [is_file] accepted:
    a regular file, with the inode and the number of links that
    [gettarinfo] reads, or a symbolic link that leads to a regular file,
    with what [os.readlink] gives. *)
Inductive lstat_result : Type :=
| S_ISREG (st_ino st_dev st_nlink : nat)
| S_ISLNK (target : string).

(** What [push] asks of its surroundings.  Nothing here is computed by
    [push]; every field is an answer the process gets from outside.  Every
    question gets its answer: a question that ends in an [OSError] (an
    entry that cannot be examined, a file that cannot be opened, a [ghr]
    that cannot be started) is outside this model. *)
Record Env : Type := {
  (** [Family.by_name] *)
  by_name : dict Family;
  (** [GitHubSession().github_token] *)
  github_token : option string;
  (** [Version(version, pdk_family).get_dir(pdk_root)] *)
  get_dir : string -> string -> string -> string;
  (** [os.path.isdir] *)
  isdir : string -> bool;
  (** [pathlib.Path(d).glob("**/*")]: every entry below [d], in the order
      of the enumeration, each as its components below [d] *)
  glob : string -> list (list string);
  (** the bytes of the regular file at a path, symbolic links followed;
      [None] where there is no regular file *)
  read : string -> option (list byte);
  (** [os.lstat] on a path that leads to a regular file *)
  lstat : string -> lstat_result;
  (** [tempfile.gettempdir()] *)
  gettempdir : string;
  (** [str(uuid.uuid4())] as drawn by this call *)
  uuid4 : string;
  (** [get_commit_date(version, repo, session)], already through
      [date_to_iso8601] *)
  commit_date : string -> string -> option string;
  (** the exit status of running a command line *)
  returncode : list string -> nat
}.

(** [path.is_file()] *)
Definition is_file (os : Env) (path : string) : bool :=
  match read os path with
  | Some _ => true
  | None => false
  end.

(** [str(path)] of an entry that [glob] yields below [directory], for a
    directory written as [pathlib] writes it.  For another spelling of the
    directory [pathlib] drops a separator at the end, a doubled separator
    and a [.] component; the components below the directory, and with
    them the relative path, stay the same. *)
Definition str_path (directory : string) (parts : list string) : string :=
  directory ++ OsPath.sep ++ String.concat OsPath.sep parts.

(** [TarInfo.type] of the members that [tf.add] makes of such paths *)
Inductive typeflag : Type :=
| REGTYPE
| LNKTYPE
| SYMTYPE.

(** One member of a tarball, [tf.add(file, arcname=...)]: its name, its
    type, the name it links to (empty for a regular file) and its bytes
    (none for a link). *)
Record member : Type := {
  arcname : string;
  type : typeflag;
  linkname : string;
  data : list byte
}.

(** [TarFile.inodes]: the name under which an inode was first archived *)
Definition inodes : Type := list ((nat * nat) * string).

Fixpoint inode_get (seen : inodes) (inode : nat * nat) : option string :=
  match seen with
  | [] => None
  | (i, name) :: seen' =>
      if Nat.eqb (fst i) (fst inode) && Nat.eqb (snd i) (snd inode)
      then Some name
      else inode_get seen' inode
  end.

(** What one call of [push] does to the world, in order. *)
Inductive event : Type :=
| Mkdirp (directory : string)
| Tarball (path : string) (members : list member)
| Run (cmd : list string) (status : nat).

(** A computation with effects: its outcome and the events up to it. *)
Definition M (A : Type) : Type := (result A * list event)%type.

Definition ret {A : Type} (a : A) : M A := (Ok a, []).
Definition raise {A : Type} (e : exn) : M A := (Raise e, []).
Definition emit (ev : event) : M unit := (Ok tt, [ev]).
Definition lift {A : Type} (r : result A) : M A := (r, []).

Definition bind {A B : Type} (m : M A) (k : A -> M B) : M B :=
  match m with
  | (Ok a, t) => let (r, t') := k a in (r, t ++ t')
  | (Raise e, t) => (Raise e, t)
  end.

Declare Scope py_scope.
Delimit Scope py_scope with py.
Notation "x <- m ;; k" := (bind m (fun x => k))
  (at level 100, m at next level, right associativity) : py_scope.
Notation "m ;; k" := (bind m (fun _ => k))
  (at level 100, right associativity) : py_scope.
Notation "x <-? r ;; k" := (rbind r (fun x => k))
  (at level 100, r at next level, right associativity) : py_scope.
Open Scope py_scope.

(** *** Lines 154-156: the libraries to push *)
Definition library_list (family : Family) (push_libraries : option (list string))
  : list string :=
  match push_libraries with
  | None => all_libraries family
  | Some [] => all_libraries family
  | Some (l :: ls) => l :: ls
  end.

(** *** Lines 172-184: the body of the loop over [path_it] *)
Definition classify (os : Env) (version_directory : string)
    (library_list : list string) (collections : dict (list string))
    (parts : list string) : result (dict (list string)) :=
  let path := str_path version_directory parts in
  if negb (is_file os path) then Ok collections
  else
    let relative := OsPath.relpath path version_directory in
    let path_components := OsPath.split relative in
    c1 <-? index path_components 1 ;;
    if String.eqb c1 "libs.ref" then
      lib <-? index path_components 2 ;;
      if negb (mem lib library_list) then Ok collections
      else
        let collections := set collections lib (get_or_empty collections lib) in
        append_to collections lib path
    else append_to collections "common" path.

Fixpoint collect (os : Env) (version_directory : string)
    (library_list : list string) (collections : dict (list string))
    (path_it : list (list string)) : result (dict (list string)) :=
  match path_it with
  | [] => Ok collections
  | parts :: rest =>
      collections <-? classify os version_directory library_list collections parts ;;
      collect os version_directory library_list collections rest
  end.

(** Lines 170-184 *)
Definition partition (os : Env) (version_directory : string)
    (library_list : list string) : result (dict (list string)) :=
  collect os version_directory library_list [("common", [])]
    (glob os version_directory).

(** *** Lines 191-194: the members added to one tarball *)

(** [TarFile.gettarinfo], as far as the type of the member goes.  [tf.add]
    does not follow links ([dereference] is left at [False]): a symbolic
    link becomes a [SYMTYPE] member; a regular file with several links,
    whose inode is already in this tarball under another name, becomes a
    [LNKTYPE] member; any other regular file becomes a [REGTYPE] member,
    and its inode, unless 0, is remembered under its name. *)
Definition gettarinfo (os : Env) (seen : inodes) (file arcname : string)
  : typeflag * string * inodes :=
  match lstat os file with
  | S_ISLNK target => (SYMTYPE, target, seen)
  | S_ISREG st_ino st_dev st_nlink =>
      let inode := (st_ino, st_dev) in
      let remembered :=
        if Nat.eqb st_ino 0 then seen else (inode, arcname) :: seen in
      match (if Nat.ltb 1 st_nlink then inode_get seen inode else None) with
      | Some name =>
          if negb (String.eqb arcname name) then (LNKTYPE, name, seen)
          else (REGTYPE, "", remembered)
      | None => (REGTYPE, "", remembered)
      end
  end.

(** The members that the loop adds, and the exception that stopped it, if
    any.  Only a [REGTYPE] member is opened and stored with its bytes. *)
Fixpoint tar_add_from (os : Env) (version_directory : string) (seen : inodes)
    (files : list string) : list member * option exn :=
  match files with
  | [] => ([], None)
  | file :: rest =>
      let path_in_tarball := OsPath.relpath file version_directory in
      let '(type, linkname, seen) := gettarinfo os seen file path_in_tarball in
      match (match type with REGTYPE => read os file | _ => Some [] end) with
      | None => ([], Some (FileNotFoundError file))
      | Some content =>
          let (members, e) := tar_add_from os version_directory seen rest in
          ({| arcname := path_in_tarball; type := type;
              linkname := linkname; data := content |} :: members, e)
      end
  end.

(** A new [TarFile] has seen no inode. *)
Definition tar_add_all (os : Env) (version_directory : string)
    (files : list string) : list member * option exn :=
  tar_add_from os version_directory [] files.

Definition tarball_name (name : string) : string := name ++ ".tar.zst".

(** *** Lines 186-197: the loop over [collections.items()] *)
Fixpoint compress (os : Env) (version_directory tarball_directory : string)
    (items : dict (list string)) (final_tarballs : list string)
  : M (list string) :=
  match items with
  | [] => ret final_tarballs
  | (name, files) :: rest =>
      let tarball_path := OsPath.join tarball_directory [tarball_name name] in
      let (members, e) := tar_add_all os version_directory files in
      emit (Tarball tarball_path members) ;;
      match e with Some e => raise e | None => ret tt end ;;
      compress os version_directory tarball_directory rest
        (final_tarballs ++ [tarball_path])
  end.

(** Line 199 *)
Definition release_tag (pdk_family version : string) : string :=
  pdk_family ++ "-" ++ version.

(** Lines 204-207 *)
Definition release_body (os : Env) (family : Family)
    (pdk_family version : string) : string :=
  match commit_date os version (repo family) with
  | Some date => pdk_family ++ " variants (released on " ++ date ++ ")"
  | None => pdk_family ++ " variants built using ciel"
  end.

(** Lines 211-227: the command line of one upload *)
Definition ghr_cmd (owner repository token body : string) (pre : bool)
    (tag tarball_path : string) : list string :=
  ["ghr"; "-owner"; owner; "-repository"; repository; "-token"; token;
   "-body"; body; "-commitish"; "releases"; "-replace"]
  ++ repeat "-prerelease" (if pre then 1 else 0)
  ++ [tag; tarball_path].

(** [subprocess.check_call] *)
Definition check_call (os : Env) (cmd : list string) : M unit :=
  let status := returncode os cmd in
  emit (Run cmd status) ;;
  match status with
  | O => ret tt
  | S _ => raise (CalledProcessError status cmd)
  end.

(** *** Lines 209-228: the loop over [final_tarballs] *)
Fixpoint upload (os : Env) (owner repository token body : string) (pre : bool)
    (tag : string) (final_tarballs : list string) : M unit :=
  match final_tarballs with
  | [] => ret tt
  | tarball_path :: rest =>
      check_call os (ghr_cmd owner repository token body pre tag tarball_path) ;;
      upload os owner repository token body pre tag rest
  end.

Definition tarball_directory (os : Env) (version : string) : string :=
  OsPath.join (gettempdir os) ["ciel"; uuid4 os; version].

(** *** Lines 136-229 *)
Definition push (os : Env) (pdk_root pdk_family version : string)
    (owner repository : string) (pre : bool)
    (push_libraries : option (list string)) : M unit :=
  family <- lift (getitem (by_name os) pdk_family) ;;
  token <- match github_token os with
           | None => raise (TypeError "No GitHub token was provided.")
           | Some token => ret token
           end ;;
  let library_list := library_list family push_libraries in
  let version_directory := get_dir os version pdk_family pdk_root in
  if negb (isdir os version_directory)
  then raise (FileNotFoundError ("Version " ++ version ++ " not found."))
  else
    let tarball_directory := tarball_directory os version in
    emit (Mkdirp tarball_directory) ;;
    collections <- lift (partition os version_directory library_list) ;;
    final_tarballs <-
      compress os version_directory tarball_directory collections [] ;;
    let tag := release_tag pdk_family version in
    let body := release_body os family pdk_family version in
    upload os owner repository token body pre tag final_tarballs.

End Build.

(** ** Vocabulary of the statements *)

Module Tree.
Import Py Build.

(** The components of an entry below a directory: at least one, each a
    file name. *)
Definition entry_ok (parts : list string) : bool :=
  match parts with
  | [] => false
  | _ :: _ => forallb OsPath.file_name parts
  end.

Definition well_formed (entries : list (list string)) : bool :=
  forallb entry_ok entries.

(** The entry lies below the library marker, in a library that was not
    asked for. *)
Definition unrequested (library_list : list string) (parts : list string) : bool :=
  match nth_error parts 1, nth_error parts 2 with
  | Some c1, Some lib => String.eqb c1 "libs.ref" && negb (mem lib library_list)
  | _, _ => false
  end.

(** The regular files that [glob] yields below a directory. *)
Definition regular_files (os : Env) (directory : string) : list (list string) :=
  filter (fun parts => is_file os (str_path directory parts)) (glob os directory).

(** The regular files among some entries that the partition does not pass
    over: all but those of a library that was not asked for. *)
Definition packaged (os : Env) (directory : string) (library_list : list string)
    (entries : list (list string)) : list (list string) :=
  filter (fun parts => is_file os (str_path directory parts)
                       && negb (unrequested library_list parts)) entries.

(** A regular file is deep enough for the loop body to read the
    components it asks for: two components, and a third below the
    marker. *)
Definition deep_enough (parts : list string) : bool :=
  match parts with
  | _ :: c1 :: rest =>
      negb (String.eqb c1 "libs.ref")
      || match rest with [] => false | _ :: _ => true end
  | _ => false
  end.

(** The base collection is there. *)
Definition has_common {V : Type} (collections : dict V) : Prop :=
  get collections "common" <> None.

(** Every path held by some collection, collection after collection. *)
Definition flatten (collections : dict (list string)) : list string :=
  List.concat (map snd collections).

(** How often a path is held by the collections. *)
Definition occurrences (collections : dict (list string)) (path : string) : nat :=
  count_occ string_dec (flatten collections) path.

(** Where the tarball of one collection is written. *)
Definition tarball_path (tarball_directory : string)
    (item : string * list string) : string :=
  OsPath.join tarball_directory [tarball_name (fst item)].

(** The tarball written for one collection, when every file can be read. *)
Definition tarball_of (os : Env) (version_directory tarball_directory : string)
    (item : string * list string) : event :=
  Tarball (tarball_path tarball_directory item)
          (fst (tar_add_all os version_directory (snd item))).

(** What [tf.add] stores of a file in a member.  A symbolic link is stored
    as a link to its target, without bytes.  A regular file is stored with
    its bytes or, when it has several links, as a hard link without
    bytes. *)
Definition stored (os : Env) (file : string) (m : member) : Prop :=
  match lstat os file with
  | S_ISLNK target =>
      type m = SYMTYPE /\ linkname m = target /\ data m = []
  | S_ISREG _ _ st_nlink =>
      (type m = REGTYPE /\ linkname m = "" /\ read os file = Some (data m))
      \/ (1 < st_nlink /\ type m = LNKTYPE /\ data m = [])
  end.

(** A member was made from a file: named by the path of the file relative
    to the version directory, and storing the file. *)
Definition member_of (os : Env) (version_directory : string)
    (file : string) (m : member) : Prop :=
  arcname m = OsPath.relpath file version_directory
  /\ stored os file m.

(** The members of all tarballs among some events. *)
Fixpoint members_of (events : list event) : list member :=
  match events with
  | [] => []
  | Tarball _ members :: rest => members ++ members_of rest
  | _ :: rest => members_of rest
  end.

(** The uploads among some events that went through: tag and tarball are
    the last two words of the command line. *)
Fixpoint published (events : list event) : list (list string) :=
  match events with
  | [] => []
  | Run cmd O :: rest => cmd :: published rest
  | _ :: rest => published rest
  end.

End Tree.

(** ** Concrete version directories *)

Module Examples.
Import Py Build.

Definition root : string := "/pdk/ciel/sky130/versions/v1".

(** A disk with the given regular files below [root]. *)
Definition disk (files : list (list string * list byte)) (path : string)
  : option (list byte) :=
  get (map (fun f => (str_path root (fst f), snd f)) files) path.

Definition sky130 : Family :=
  {| all_libraries := ["lib1"; "lib2"]; repo := "sky130/repo" |}.

Definition env (token : option string) (entries : list (list string))
    (files : list (list string * list byte)) (status : list string -> nat) : Env :=
  {| by_name := [("sky130", sky130)];
     github_token := token;
     get_dir := fun _ _ _ => root;
     isdir := fun d => String.eqb d root;
     glob := fun d => if String.eqb d root then entries else [];
     read := disk files;
     lstat := fun _ => S_ISREG 1 0 1;
     gettempdir := "/tmp";
     uuid4 := "0000";
     commit_date := fun _ _ => None;
     returncode := status |}.

(** The tree [{a.txt, libs.ref/lib1/x.lef, libs.ref/lib2/y.lef}]. *)
Definition flat_entries : list (list string) :=
  [["a.txt"]; ["libs.ref"]; ["libs.ref"; "lib1"]; ["libs.ref"; "lib1"; "x.lef"];
   ["libs.ref"; "lib2"]; ["libs.ref"; "lib2"; "y.lef"]].
Definition flat_files : list (list string * list byte) :=
  [(["a.txt"], [x01]); (["libs.ref"; "lib1"; "x.lef"], [x02]);
   (["libs.ref"; "lib2"; "y.lef"], [x03])].

(** The same tree one level down, below the variant [sky130A]. *)
Definition nested_entries : list (list string) :=
  [["sky130A"]; ["sky130A"; "a.txt"]; ["sky130A"; "libs.ref"];
   ["sky130A"; "libs.ref"; "lib1"]; ["sky130A"; "libs.ref"; "lib1"; "x.lef"];
   ["sky130A"; "libs.ref"; "lib2"]; ["sky130A"; "libs.ref"; "lib2"; "y.lef"]].
Definition nested_files : list (list string * list byte) :=
  [(["sky130A"; "a.txt"], [x01]);
   (["sky130A"; "libs.ref"; "lib1"; "x.lef"], [x02]);
   (["sky130A"; "libs.ref"; "lib2"; "y.lef"], [x03])].

(** A tree that holds one regular file with the marker as its name. *)
Definition marker_entries : list (list string) :=
  [["sky130A"]; ["sky130A"; "libs.ref"]].
Definition marker_files : list (list string * list byte) :=
  [(["sky130A"; "libs.ref"], [x01])].

(** Every command exits with the same status. *)
Definition always (status : nat) (cmd : list string) : nat := status.

(** Only the upload of the tarball at [path] fails. *)
Definition fails_on (path : string) (cmd : list string) : nat :=
  if String.eqb (last cmd "") path then 1 else 0.

Definition flat_env : Env := env (Some "token") flat_entries flat_files (always 0).
Definition nested_env : Env := env (Some "token") nested_entries nested_files (always 0).


(** The nested tree with two more entries in [lib1]: [z.lef], a symbolic
    link to [x.lef], and [w.lef], a second link to the inode of [x.lef].
    Both read as [x.lef] does. *)
Definition linked_entries : list (list string) :=
  nested_entries
  ++ [["sky130A"; "libs.ref"; "lib1"; "z.lef"];
      ["sky130A"; "libs.ref"; "lib1"; "w.lef"]].
Definition linked_files : list (list string * list byte) :=
  nested_files
  ++ [(["sky130A"; "libs.ref"; "lib1"; "z.lef"], [x02]);
      (["sky130A"; "libs.ref"; "lib1"; "w.lef"], [x02])].
Definition linked_lstat (path : string) : lstat_result :=
  if String.eqb path (str_path root ["sky130A"; "libs.ref"; "lib1"; "z.lef"])
  then S_ISLNK "x.lef"
  else if String.eqb path (str_path root ["sky130A"; "libs.ref"; "lib1"; "x.lef"])
          || String.eqb path
               (str_path root ["sky130A"; "libs.ref"; "lib1"; "w.lef"])
  then S_ISREG 7 0 2
  else S_ISREG 1 0 1.
Definition linked_env : Env :=
  {| by_name := [("sky130", sky130)];
     github_token := Some "token";
     get_dir := fun _ _ _ => root;
     isdir := fun d => String.eqb d root;
     glob := fun d => if String.eqb d root then linked_entries else [];
     read := disk linked_files;
     lstat := linked_lstat;
     gettempdir := "/tmp";
     uuid4 := "0000";
     commit_date := fun _ _ => None;
     returncode := always 0 |}.

End Examples.

(** ** The other entry points of [ciel.build] *)

Module Commands.
Import Py Build.

(** [s.split(c)] for a separator [c] of one character *)
Fixpoint split_on (c : ascii) (s : string) : list string :=
  match s with
  | EmptyString => [EmptyString]
  | String x s' =>
      if Ascii.eqb x c then EmptyString :: split_on c s'
      else match split_on c s' with
           | [] => [String x EmptyString]
           | w :: ws => String x w :: ws
           end
  end.

(** How a call ends: it returns, an exception leaves it, or [exit(code)]
    raises [SystemExit]. *)
Inductive ending (E : Type) : Type :=
| Returned
| Raised (e : E)
| SystemExit (code : Z).
Arguments Returned {E}.
Arguments Raised {E} e.
Arguments SystemExit {E} code.

(** *** [build], lines 51-81 *)

(** The exceptions that leave [build]: the [ValueError] of unpacking a
    list of [items] items into [name, path], the [Exception] of line 68,
    and whatever the module of the family raises, on import or in its
    [build], kept as its text. *)
Inductive build_exn : Type :=
| ValueError (items : nat)
| Exception (msg : string)
| FamilyError (text : string).

(** The keyword arguments of lines 70-77, one field per key. *)
Record kwargs : Type := {
  kw_pdk_root : string;
  kw_version : string;
  kw_jobs : Z;
  kw_clear_build_artifacts : bool;
  kw_include_libraries : option (list string);
  kw_using_repos : dict string
}.

(** What [build] and [build_cmd] ask of their surroundings. *)
Record BuildEnv : Type := {
  (** [Family.by_name] *)
  families : dict Family;
  (** [os.path.abspath] *)
  abspath : string -> string;
  (** what getting hold of the [build] of the module of a family raises,
      lines 79-80, if anything *)
  import_module : string -> option string;
  (** what the [build] of the module of a family raises, if anything *)
  build_function : string -> kwargs -> option string;
  (** [resolve_version(version, tool_metadata_file_path)]: the version,
      or the text of the exception *)
  resolve_version : option string -> option string -> string + string
}.

(** Line 64: [name, path = repo.split("=")] *)
Definition unpack_repo (repo : string) : build_exn + (string * string) :=
  match split_on "="%char repo with
  | [name; path] => inr (name, path)
  | items => inl (ValueError (List.length items))
  end.

(** Lines 63-65: the loop over [use_repo_at] *)
Fixpoint collect_repos (os : BuildEnv) (use_repos : dict string)
    (use_repo_at : list string) : build_exn + dict string :=
  match use_repo_at with
  | [] => inr use_repos
  | repo :: rest =>
      match unpack_repo repo with
      | inl e => inl e
      | inr (name, path) =>
          collect_repos os (set use_repos name (abspath os path)) rest
      end
  end.

(** Lines 61-65 *)
Definition use_repos_of (os : BuildEnv) (use_repo_at : option (list string))
  : build_exn + dict string :=
  match use_repo_at with
  | None => inr []
  | Some repos => collect_repos os [] repos
  end.

(** Lines 51-81.  The second component lists the calls of the [build] of
    a family's module.  [sram] is accepted and never read. *)
Definition build (os : BuildEnv) (pdk_root pdk_family version : string)
    (jobs : Z) (sram clear_build_artifacts : bool)
    (include_libraries use_repo_at : option (list string))
  : ending build_exn * list (string * kwargs) :=
  match use_repos_of os use_repo_at with
  | inl e => (Raised e, [])
  | inr use_repos =>
      match get (families os) pdk_family with
      | None =>
          (Raised (Exception ("Unsupported PDK family '" ++ pdk_family ++ "'.")),
           [])
      | Some _ =>
          let kwargs :=
            {| kw_pdk_root := pdk_root;
               kw_version := version;
               kw_jobs := jobs;
               kw_clear_build_artifacts := clear_build_artifacts;
               kw_include_libraries := include_libraries;
               kw_using_repos := use_repos |} in
          match import_module os pdk_family with
          | Some text => (Raised (FamilyError text), [])
          | None =>
              (match build_function os pdk_family kwargs with
               | Some text => Raised (FamilyError text)
               | None => Returned
               end,
               [(pdk_family, kwargs)])
          end
      end
  end.

(** *** [build_cmd], lines 96-133: how it ends, the calls of a family's
    [build], and the texts that [build_cmd] itself passes to the console *)
Definition build_cmd (os : BuildEnv) (include_libraries : option (list string))
    (jobs : Z) (pdk_root pdk_family : string) (clear_build_artifacts : bool)
    (tool_metadata_file_path version : option string)
    (use_repo_at : option (list string))
  : ending build_exn * list (string * kwargs) * list string :=
  let include_libraries :=
    match include_libraries with
    | Some [] => None
    | other => other
    end in
  match resolve_version os version tool_metadata_file_path with
  | inr e =>
      (SystemExit (-1), [], [("Could not determine open_pdks version: " ++ e)%string])
  | inl version =>
      (build os pdk_root pdk_family version jobs true clear_build_artifacts
         include_libraries use_repo_at,
       [])
  end.

(** *** [push_cmd], lines 237-266 *)

(** [str(l)] of a list of [str], given [repr] on [str] *)
Definition str_list (repr : string -> string) (l : list string) : string :=
  "[" ++ String.concat ", " (map repr l) ++ "]".

(** [str(e)] of an exception that leaves [push] *)
Definition str_exn (repr : string -> string) (e : exn) : string :=
  match e with
  | KeyError key => repr key
  | TypeError msg => msg
  | FileNotFoundError msg => msg
  | IndexError => "list index out of range"
  | CalledProcessError returncode cmd =>
      "Command '" ++ str_list repr cmd ++ "' returned non-zero exit status "
      ++ NilEmpty.string_of_uint (Nat.to_uint returncode) ++ "."
  end.

(** Lines 253-266: how it ends, what [push] did, and the texts that
    [push_cmd] itself passes to [console.print], markup as written in the
    source.  What [push] logs on its way is not among them. *)
Definition push_cmd (repr : string -> string) (os : Env)
    (owner repository : string) (pre : bool)
    (pdk_root pdk_family version : string)
    (push_libraries : option (list string))
  : ending exn * list event * list string :=
  match push os pdk_root pdk_family version owner repository pre
          push_libraries with
  | (Ok _, events) => (Returned, events, [])
  | (Raise e, events) =>
      (SystemExit (-1), events,
       [("[red]Failed to push version: " ++ str_exn repr e)%string])
  end.

End Commands.

(** ** Where the partition puts a file *)

Module Placement.
Import Py Build Tree.

(** The collection that the loop body picks for a regular file that it
    neither passes over nor fails on. *)
Definition destination (parts : list string) : string :=
  match parts with
  | _ :: c1 :: lib :: _ => if String.eqb c1 "libs.ref" then lib else "common"
  | _ => "common"
  end.

(** The paths of the packaged files among some entries that go to the
    collection [name], in the order of the entries. *)
Definition assigned (os : Env) (directory : string) (library_list : list string)
    (name : string) (entries : list (list string)) : list string :=
  map (str_path directory)
    (filter (fun parts => String.eqb (destination parts) name)
       (packaged os directory library_list entries)).

(** The list under a key after some paths were appended to what was
    under it before; a key with nothing before and nothing appended stays
    absent. *)
Definition extended (before : option (list string)) (added : list string)
  : option (list string) :=
  match before, added with
  | Some l, _ => Some (l ++ added)
  | None, [] => None
  | None, _ :: _ => Some added
  end.

(** The uploads among some events, whatever their exit status. *)
Fixpoint runs (events : list event) : list (list string) :=
  match events with
  | [] => []
  | Run cmd _ :: rest => cmd :: runs rest
  | _ :: rest => runs rest
  end.

(** The paths of the tarballs among some events. *)
Fixpoint tarballs (events : list event) : list string :=
  match events with
  | [] => []
  | Tarball path _ :: rest => path :: tarballs rest
  | _ :: rest => tarballs rest
  end.

(** The same surroundings, with no directory anywhere. *)
Definition without_directories (os : Env) : Env :=
  {| by_name := by_name os;
     github_token := github_token os;
     get_dir := get_dir os;
     isdir := fun _ => false;
     glob := glob os;
     read := read os;
     lstat := lstat os;
     gettempdir := gettempdir os;
     uuid4 := uuid4 os;
     commit_date := commit_date os;
     returncode := returncode os |}.

(** How often a character occurs in a string. *)
Fixpoint count_of (c : ascii) (s : string) : nat :=
  match s with
  | EmptyString => 0
  | String x s' => (if Ascii.eqb x c then 1 else 0) + count_of c s'
  end.

(** One entry of [use_repo_at], as the command line gives it. *)
Definition override (name_path : string * string) : string :=
  (fst name_path ++ "=" ++ snd name_path)%string.

(** A disk for [build]: the families of the examples, paths made absolute
    below ["/home/user"], a module for every family, builds that go
    through, and a version that is resolved as given. *)
Definition build_env : Commands.BuildEnv :=
  {| Commands.families := [("sky130", Examples.sky130)];
     Commands.abspath := fun p => ("/home/user/" ++ p)%string;
     Commands.import_module := fun _ => None;
     Commands.build_function := fun _ _ => None;
     Commands.resolve_version := fun version _ =>
       match version with
       | Some v => inl v
       | None => inr "no version"
       end |}.

End Placement.

(** * Facts *)

(** ** Splitting and joining paths *)

Module OsPathFacts.
Import OsPath.

Lemma append_assoc (a b c : string) : ((a ++ b) ++ c = a ++ (b ++ c))%string.
Proof. induction a as [|x a IH]; simpl; [reflexivity | now rewrite IH]. Qed.

Lemma append_empty_r (a : string) : (a ++ "" = a)%string.
Proof. induction a as [|x a IH]; simpl; [reflexivity | now rewrite IH]. Qed.

Lemma append_cancel_l (a b c : string) : (a ++ b = a ++ c)%string -> b = c.
Proof.
  induction a as [|x a IH]; simpl; intros H; [exact H|].
  injection H as H. now apply IH.
Qed.

Lemma split_not_nil (s : string) : split s <> [].
Proof.
  induction s as [|c s IH]; simpl; [discriminate|].
  destruct (Ascii.eqb c sep_char); [discriminate|].
  destruct (split s); [contradiction | discriminate].
Qed.

(** Splitting distributes over a separator. *)
Lemma split_sep (a b : string) :
  split (a ++ sep ++ b) = split a ++ split b.
Proof.
  unfold sep. induction a as [|c a IH]; simpl in *.
  - reflexivity.
  - rewrite IH. destruct (Ascii.eqb c sep_char); [reflexivity|].
    pose proof (split_not_nil a) as Hne.
    destruct (split a) as [|w ws]; [contradiction | reflexivity].
Qed.

Lemma split_sep_free (s : string) : sep_free s = true -> split s = [s].
Proof.
  induction s as [|c s IH]; simpl; [reflexivity|].
  intros H. apply andb_true_iff in H as [Hc Hs].
  apply negb_true_iff in Hc. rewrite Hc, (IH Hs). reflexivity.
Qed.

Lemma file_name_sep_free (s : string) : file_name s = true -> sep_free s = true.
Proof.
  unfold file_name. intros H. rewrite !andb_true_iff in H. tauto.
Qed.

Lemma file_name_not_empty (s : string) : file_name s = true -> is_empty s = false.
Proof.
  unfold file_name. intros H. rewrite !andb_true_iff in H.
  destruct H as [[[H _] _] _]. now apply negb_true_iff in H.
Qed.

(** [split] undoes ["/".join] on file names. *)
Lemma split_concat (parts : list string) :
  forallb file_name parts = true -> parts <> [] ->
  split (String.concat sep parts) = parts.
Proof.
  induction parts as [|x parts IH]; intros H Hne; [contradiction|].
  simpl in H. apply andb_true_iff in H as [Hx Hparts].
  destruct parts as [|y parts].
  - simpl. now apply split_sep_free, file_name_sep_free.
  - change (String.concat sep (x :: y :: parts))
      with (x ++ sep ++ String.concat sep (y :: parts))%string.
    rewrite split_sep, IH by (assumption || discriminate).
    rewrite split_sep_free by now apply file_name_sep_free.
    reflexivity.
Qed.

Lemma components_file_names (parts : list string) :
  forallb file_name parts = true ->
  filter (fun x => negb (is_empty x)) parts = parts.
Proof.
  induction parts as [|x parts IH]; simpl; intros H; [reflexivity|].
  apply andb_true_iff in H as [Hx Hparts].
  rewrite (file_name_not_empty _ Hx). simpl. now rewrite IH.
Qed.

Lemma components_sep (a b : string) :
  components (a ++ sep ++ b) = components a ++ components b.
Proof. unfold components. now rewrite split_sep, filter_app. Qed.

Lemma components_concat (parts : list string) :
  forallb file_name parts = true ->
  components (String.concat sep parts) = parts.
Proof.
  intros H. destruct parts as [|x parts]; [reflexivity|].
  unfold components. rewrite split_concat by (assumption || discriminate).
  now apply components_file_names.
Qed.

Lemma commonprefix_app (l r : list string) : commonprefix l (l ++ r) = l.
Proof.
  induction l as [|x l IH]; simpl; [now destruct r|].
  now rewrite String.eqb_refl, IH.
Qed.

Lemma endswith_sep_append (a b : string) :
  is_empty b = false -> endswith_sep (a ++ b) = endswith_sep b.
Proof.
  intros Hb. induction a as [|c a IH]; simpl; [reflexivity|].
  rewrite IH. destruct (a ++ b)%string eqn:E; [|reflexivity].
  destruct a; simpl in E; [subst b; discriminate | discriminate].
Qed.

Lemma sep_free_endswith (s : string) : sep_free s = true -> endswith_sep s = false.
Proof.
  induction s as [|c s IH]; simpl; [reflexivity|].
  intros H. apply andb_true_iff in H as [Hc Hs]. apply negb_true_iff in Hc.
  destruct s; [exact Hc | now apply IH].
Qed.

Lemma file_name_startswith (s : string) :
  file_name s = true -> startswith_sep s = false.
Proof.
  intros H. apply file_name_sep_free in H. destruct s; simpl in *; [reflexivity|].
  apply andb_true_iff in H as [Hc _]. now apply negb_true_iff in Hc.
Qed.

Lemma is_empty_append (a b : string) :
  is_empty b = false -> is_empty (a ++ b) = false.
Proof. intros Hb. destruct a; simpl; [exact Hb | reflexivity]. Qed.

(** Joining onto a path that ends in a file name puts a separator in
    between. *)
Lemma join_step_file_name (a x b : string) :
  file_name x = true -> file_name b = true ->
  join_step (a ++ x) b = ((a ++ x) ++ sep ++ b)%string.
Proof.
  intros Hx Hb. unfold join_step.
  rewrite (file_name_startswith _ Hb).
  rewrite is_empty_append by now apply file_name_not_empty.
  rewrite endswith_sep_append by now apply file_name_not_empty.
  rewrite sep_free_endswith by now apply file_name_sep_free.
  reflexivity.
Qed.

Lemma join_file_names (p : list string) : forall a x : string,
  file_name x = true -> forallb file_name p = true ->
  join (a ++ x) p = (a ++ String.concat sep (x :: p))%string.
Proof.
  unfold join.
  induction p as [|b p IH]; intros a x Hx Hp; [reflexivity|].
  simpl in Hp. apply andb_true_iff in Hp as [Hb Hp].
  cbn [fold_left]. rewrite join_step_file_name by assumption.
  replace ((a ++ x) ++ sep ++ b)%string with ((a ++ x ++ sep) ++ b)%string
    by now rewrite !append_assoc.
  rewrite IH by assumption.
  change (String.concat sep (x :: b :: p))
    with (x ++ sep ++ String.concat sep (b :: p))%string.
  now rewrite !append_assoc.
Qed.

End OsPathFacts.

(** ** Paths below a version directory *)

Module PathFacts.
Import OsPath OsPathFacts Py Build Tree.

Lemma entry_ok_file_names (parts : list string) :
  entry_ok parts = true -> forallb file_name parts = true.
Proof. destruct parts; [discriminate | trivial]. Qed.

Lemma entry_ok_not_nil (parts : list string) : entry_ok parts = true -> parts <> [].
Proof. destruct parts; [discriminate | discriminate]. Qed.

(** The path of an entry, taken relative to the directory it was found
    below, is its components joined by the separator. *)
Lemma relpath_str_path (directory : string) (parts : list string) :
  entry_ok parts = true ->
  relpath (str_path directory parts) directory = String.concat sep parts.
Proof.
  intros Hok. pose proof (entry_ok_file_names _ Hok) as Hnames.
  unfold relpath, str_path.
  rewrite components_sep, components_concat by assumption.
  rewrite commonprefix_app, Nat.sub_diag. cbn [repeat app].
  rewrite skipn_app, skipn_all, Nat.sub_diag. cbn [skipn app].
  destruct parts as [|x p]; [discriminate|].
  simpl in Hnames. apply andb_true_iff in Hnames as [Hx Hp].
  exact (join_file_names p "" x Hx Hp).
Qed.

(** ... and splits back into the components. *)
Lemma split_relpath (directory : string) (parts : list string) :
  entry_ok parts = true ->
  split (relpath (str_path directory parts) directory) = parts.
Proof.
  intros Hok. rewrite relpath_str_path by assumption.
  apply split_concat;
    [now apply entry_ok_file_names | now apply entry_ok_not_nil].
Qed.

Lemma str_path_inj (directory : string) (p q : list string) :
  entry_ok p = true -> entry_ok q = true ->
  str_path directory p = str_path directory q -> p = q.
Proof.
  intros Hp Hq H.
  rewrite <- (split_relpath directory p Hp), <- (split_relpath directory q Hq).
  now rewrite H.
Qed.

Lemma relpath_not_absolute (directory : string) (parts : list string) :
  entry_ok parts = true ->
  startswith_sep (relpath (str_path directory parts) directory) = false.
Proof.
  intros Hok. rewrite relpath_str_path by assumption.
  destruct parts as [|x p]; [discriminate|].
  simpl in Hok. apply andb_true_iff in Hok as [Hx _].
  pose proof (file_name_startswith _ Hx) as Hs.
  destruct p; simpl; [exact Hs|].
  destruct x; [discriminate | exact Hs].
Qed.

End PathFacts.

(** ** Dictionaries of lists *)

Module DictFacts.
Import Py Tree.

Lemma get_set {V : Type} (d : dict V) (k k' : string) (v : V) :
  get (set d k v) k' = if String.eqb k' k then Some v else get d k'.
Proof.
  induction d as [|[k0 v0] d IH]; simpl.
  - reflexivity.
  - destruct (String.eqb_spec k k0) as [->|Hk]; simpl.
    + destruct (String.eqb k' k0); reflexivity.
    + rewrite IH. destruct (String.eqb_spec k' k0) as [->|Hk'].
      * destruct (String.eqb_spec k0 k) as [E|_]; [now symmetry in E | reflexivity].
      * reflexivity.
Qed.

Lemma set_same {V : Type} (d : dict V) (k : string) (v : V) :
  get d k = Some v -> set d k v = d.
Proof.
  induction d as [|[k0 v0] d IH]; simpl; [discriminate|].
  destruct (String.eqb_spec k k0) as [->|Hk]; intros H.
  - now injection H as ->.
  - now rewrite IH.
Qed.

Lemma has_common_set {V : Type} (d : dict V) (k : string) (v : V) :
  has_common d -> has_common (set d k v).
Proof.
  unfold has_common. rewrite get_set.
  destruct (String.eqb "common" k); [discriminate | trivial].
Qed.

Lemma flatten_set_append (d : dict (list string)) (k x : string) (l : list string) :
  get d k = Some l ->
  Permutation (flatten (set d k (l ++ [x]))) (x :: flatten d).
Proof.
  unfold flatten.
  induction d as [|[k0 v0] d IH]; simpl; [discriminate|].
  destruct (String.eqb k k0); intros H.
  - injection H as ->. simpl. rewrite <- app_assoc. simpl.
    symmetry. apply Permutation_middle.
  - simpl. rewrite (IH H). symmetry. apply Permutation_middle.
Qed.

Lemma flatten_set_or_empty (d : dict (list string)) (k : string) :
  flatten (set d k (get_or_empty d k)) = flatten d.
Proof.
  unfold get_or_empty. destruct (get d k) as [[|x l]|] eqn:E.
  - now rewrite set_same.
  - now rewrite set_same.
  - clear -E. unfold flatten.
    induction d as [|[k0 v0] d IH]; simpl in *; [reflexivity|].
    destruct (String.eqb k k0); [discriminate|].
    simpl. now rewrite IH.
Qed.

Lemma append_to_present {A : Type} (d : dict (list A)) (k : string) (x : A)
    (l : list A) :
  get d k = Some l -> append_to d k x = Ok (set d k (l ++ [x])).
Proof. intros H. unfold append_to, getitem. now rewrite H. Qed.

(** Appending to a collection that is there adds the path once, and
    keeps the base collection. *)
Lemma append_to_spec (d : dict (list string)) (k x : string) :
  get d k <> None -> has_common d ->
  exists d', append_to d k x = Ok d'
             /\ Permutation (flatten d') (x :: flatten d)
             /\ has_common d'.
Proof.
  intros Hk Hc. destruct (get d k) as [l|] eqn:E; [|contradiction].
  exists (set d k (l ++ [x])). split; [now apply append_to_present|].
  split; [now apply flatten_set_append | now apply has_common_set].
Qed.

(** The same after [d[k] = d.get(k) or []]. *)
Lemma setdefault_append_spec (d : dict (list string)) (k x : string) :
  has_common d ->
  exists d', append_to (set d k (get_or_empty d k)) k x = Ok d'
             /\ Permutation (flatten d') (x :: flatten d)
             /\ has_common d'.
Proof.
  intros Hc.
  destruct (append_to_spec (set d k (get_or_empty d k)) k x) as (d' & H1 & H2 & H3).
  - rewrite get_set, String.eqb_refl. discriminate.
  - now apply has_common_set.
  - exists d'. rewrite flatten_set_or_empty in H2. auto.
Qed.

End DictFacts.

(** ** The partition *)

Module PartitionFacts.
Import OsPath OsPathFacts PathFacts Py Build Tree DictFacts.

Section Partition.
Variable os : Env.
Variable version_directory : string.
Variable library_list : list string.

Let path_of := str_path version_directory.

Lemma classify_not_file (d : dict (list string)) (parts : list string) :
  is_file os (path_of parts) = false ->
  classify os version_directory library_list d parts = Ok d.
Proof. intros H. unfold classify. fold (path_of parts). now rewrite H. Qed.

(** On a well-formed entry the loop body decides on the components. *)
Lemma classify_file (d : dict (list string)) (parts : list string) :
  entry_ok parts = true -> is_file os (path_of parts) = true ->
  classify os version_directory library_list d parts =
  match parts with
  | _ :: c1 :: rest =>
      if String.eqb c1 "libs.ref" then
        match rest with
        | [] => Raise IndexError
        | lib :: _ =>
            if mem lib library_list
            then append_to (set d lib (get_or_empty d lib)) lib (path_of parts)
            else Ok d
        end
      else append_to d "common" (path_of parts)
  | _ => Raise IndexError
  end.
Proof.
  intros Hok Hfile. unfold classify. fold (path_of parts). rewrite Hfile.
  cbn [negb]. unfold path_of. rewrite split_relpath by assumption.
  destruct parts as [|c0 [|c1 [|lib rest]]]; try reflexivity.
  unfold index; cbn [nth_error rbind].
  destruct (String.eqb c1 "libs.ref"); [|reflexivity].
  destruct (mem lib library_list); reflexivity.
Qed.

(** Whatever the entry, the loop body raises [IndexError], leaves the
    collections alone, or adds the path of a regular file once. *)
Lemma classify_cases (d : dict (list string)) (parts : list string) :
  has_common d ->
  classify os version_directory library_list d parts = Raise IndexError
  \/ classify os version_directory library_list d parts = Ok d
  \/ (is_file os (path_of parts) = true
      /\ exists d', classify os version_directory library_list d parts = Ok d'
                    /\ Permutation (flatten d') (path_of parts :: flatten d)
                    /\ has_common d').
Proof.
  intros Hc. unfold classify. fold (path_of parts).
  destruct (is_file os (path_of parts)) eqn:Hfile; cbn [negb]; [|auto].
  set (pc := split (relpath (path_of parts) version_directory)).
  unfold index. destruct (nth_error pc 1) as [c1|]; cbn [rbind]; [|auto].
  destruct (String.eqb c1 "libs.ref").
  - destruct (nth_error pc 2) as [lib|]; cbn [rbind]; [|auto].
    destruct (mem lib library_list); cbn [negb]; [|auto].
    right; right. split; [reflexivity|].
    now apply setdefault_append_spec.
  - right; right. split; [reflexivity|].
    now apply append_to_spec.
Qed.

(** On a well-formed regular file that is deep enough, the loop body
    goes through, and adds the path unless the library was not asked for. *)
Lemma classify_deep (d : dict (list string)) (parts : list string) :
  has_common d -> entry_ok parts = true -> is_file os (path_of parts) = true ->
  (exists c0 c1 rest, parts = c0 :: c1 :: rest
                      /\ (c1 = "libs.ref" -> rest <> [])) ->
  exists d', classify os version_directory library_list d parts = Ok d'
             /\ has_common d'
             /\ if unrequested library_list parts then d' = d
                else Permutation (flatten d') (path_of parts :: flatten d).
Proof.
  intros Hc Hok Hfile (c0 & c1 & rest & -> & Hrest).
  rewrite classify_file by assumption. unfold unrequested. cbn [nth_error].
  destruct (String.eqb_spec c1 "libs.ref") as [->|Hc1].
  - destruct rest as [|lib rest]; [now specialize (Hrest eq_refl)|].
    cbn [nth_error andb]. destruct (mem lib library_list); cbn [negb].
    + destruct (setdefault_append_spec d lib (path_of (c0 :: "libs.ref" :: lib :: rest)) Hc)
        as (d' & H1 & H2 & H3).
      exists d'. auto.
    + exists d. auto.
  - destruct (append_to_spec d "common" (path_of (c0 :: c1 :: rest)) Hc Hc)
      as (d' & H1 & H2 & H3).
    exists d'. split; [exact H1|]. split; [exact H3|].
    destruct rest; exact H2.
Qed.

(** A regular file at the top, or one that is named like the marker one
    level down, makes the loop body raise. *)
Lemma classify_shallow (d : dict (list string)) (parts : list string) :
  entry_ok parts = true -> is_file os (path_of parts) = true ->
  (exists c0, parts = [c0]) \/ (exists c0, parts = [c0; "libs.ref"]) ->
  classify os version_directory library_list d parts = Raise IndexError.
Proof.
  intros Hok Hfile [[c0 ->]|[c0 ->]]; now rewrite classify_file.
Qed.

(** What a loop body that went through did to the collections. *)
Lemma classify_ok (d d' : dict (list string)) (parts : list string) :
  has_common d -> entry_ok parts = true ->
  classify os version_directory library_list d parts = Ok d' ->
  has_common d'
  /\ if is_file os (path_of parts) && negb (unrequested library_list parts)
     then Permutation (flatten d') (path_of parts :: flatten d)
     else d' = d.
Proof.
  intros Hc Hok H.
  destruct (is_file os (path_of parts)) eqn:Hfile; cbn [andb].
  - assert (Hdeep : exists c0 c1 rest, parts = c0 :: c1 :: rest
                                       /\ (c1 = "libs.ref" -> rest <> [])).
    { rewrite classify_file in H by assumption.
      destruct parts as [|c0 [|c1 rest]]; try discriminate.
      exists c0, c1, rest. split; [reflexivity|].
      intros -> ->. discriminate. }
    destruct (classify_deep d parts Hc Hok Hfile Hdeep) as (d2 & H1 & H2 & H3).
    rewrite H1 in H. injection H as ->. split; [exact H2|].
    destruct (unrequested library_list parts); cbn [negb]; exact H3.
  - rewrite classify_not_file in H by assumption. injection H as <-. auto.
Qed.

Lemma collect_raises (path_it : list (list string)) :
  forall (d : dict (list string)) (e : exn),
  has_common d ->
  collect os version_directory library_list d path_it = Raise e ->
  e = IndexError.
Proof.
  induction path_it as [|parts rest IH]; intros d e Hc H; [discriminate|].
  cbn [collect] in H.
  destruct (classify_cases d parts Hc) as [E|[E|(_ & d' & E & _ & Hc')]];
    rewrite E in H; cbn [rbind] in H.
  - now injection H as <-.
  - now apply (IH d).
  - now apply (IH d').
Qed.


(** The collections only ever hold paths of regular files that the
    enumeration yielded. *)
Lemma collect_sound (path_it : list (list string)) :
  forall d cs : dict (list string),
  has_common d ->
  collect os version_directory library_list d path_it = Ok cs ->
  forall file, In file (flatten cs) ->
  In file (flatten d)
  \/ exists parts, In parts path_it /\ file = path_of parts
                   /\ is_file os file = true.
Proof.
  induction path_it as [|parts rest IH]; intros d cs Hc H file Hin.
  - injection H as <-. now left.
  - cbn [collect] in H.
    destruct (classify_cases d parts Hc) as [E|[E|(Hfile & d' & E & Hperm & Hc')]];
      rewrite E in H; cbn [rbind] in H.
    + discriminate.
    + destruct (IH d cs Hc H file Hin) as [?|(p & ? & ? & ?)]; [now left|].
      right. exists p. simpl. auto.
    + destruct (IH d' cs Hc' H file Hin) as [Hd'|(p & ? & ? & ?)].
      * apply (Permutation_in _ Hperm) in Hd'. destruct Hd' as [<-|?]; [|now left].
        right. exists parts. simpl. auto.
      * right. exists p. simpl. auto.
Qed.

(** On well-formed entries the collections end up holding, next to what
    they held before, each packaged regular file once. *)
Lemma collect_perm (path_it : list (list string)) :
  forall d cs : dict (list string),
  has_common d -> well_formed path_it = true ->
  collect os version_directory library_list d path_it = Ok cs ->
  Permutation (flatten cs)
    (flatten d
     ++ map path_of (packaged os version_directory library_list path_it)).
Proof.
  induction path_it as [|parts rest IH]; intros d cs Hc Hwf H.
  - injection H as <-. simpl. now rewrite app_nil_r.
  - cbn [collect] in H. cbn [well_formed forallb] in Hwf.
    apply andb_true_iff in Hwf as [Hok Hwf].
    destruct (classify os version_directory library_list d parts) as [d'|e] eqn:E;
      cbn [rbind] in H; [|discriminate].
    destruct (classify_ok d d' parts Hc Hok E) as [Hc' Hstep].
    specialize (IH d' cs Hc' Hwf H).
    unfold packaged in *. cbn [filter]. fold (path_of parts).
    destruct (is_file os (path_of parts) && negb (unrequested library_list parts)).
    + rewrite IH. cbn [map]. rewrite Hstep.
      apply (Permutation_middle (flatten d)).
    + now subst d'.
Qed.

(** The partition goes through when every regular file is deep enough. *)
Lemma collect_total (path_it : list (list string)) :
  forall d : dict (list string),
  has_common d -> well_formed path_it = true ->
  (forall parts, In parts path_it -> is_file os (path_of parts) = true ->
     exists c0 c1 rest, parts = c0 :: c1 :: rest
                        /\ (c1 = "libs.ref" -> rest <> [])) ->
  exists cs, collect os version_directory library_list d path_it = Ok cs.
Proof.
  induction path_it as [|parts rest IH]; intros d Hc Hwf Hdeep.
  - now exists d.
  - cbn [collect]. cbn [well_formed forallb] in Hwf.
    apply andb_true_iff in Hwf as [Hok Hwf].
    destruct (is_file os (path_of parts)) eqn:Hfile.
    + destruct (classify_deep d parts Hc Hok Hfile) as (d' & -> & Hc' & _).
      { apply Hdeep; [now left | assumption]. }
      cbn [rbind]. apply IH; auto. intros p Hp. apply Hdeep. now right.
    + rewrite classify_not_file by assumption. cbn [rbind].
      apply IH; auto. intros p Hp. apply Hdeep. now right.
Qed.

(** One regular file that is too shallow makes the partition raise. *)
Lemma collect_shallow (path_it : list (list string)) :
  forall (d : dict (list string)) (parts : list string),
  has_common d -> In parts path_it ->
  entry_ok parts = true -> is_file os (path_of parts) = true ->
  (exists c0, parts = [c0]) \/ (exists c0, parts = [c0; "libs.ref"]) ->
  collect os version_directory library_list d path_it = Raise IndexError.
Proof.
  induction path_it as [|p rest IH]; intros d parts Hc Hin Hok Hfile Hsh;
    [contradiction|].
  cbn [collect]. destruct Hin as [->|Hin].
  - now rewrite classify_shallow.
  - destruct (classify_cases d p Hc) as [E|[E|(_ & d' & E & _ & Hc')]];
      rewrite E; cbn [rbind].
    + reflexivity.
    + now apply (IH d parts).
    + now apply (IH d' parts).
Qed.

End Partition.
End PartitionFacts.

(** ** Tarballs and uploads *)

Module PushFacts.
Import OsPath OsPathFacts PathFacts Py Build Tree DictFacts PartitionFacts.

Section Stages.
Variable os : Env.
Variable version_directory : string.

(** When every file can be read, each becomes one member, in order,
    whatever inodes the tarball has seen. *)
Lemma tar_add_from_readable (files : list string) :
  forall seen : inodes,
  (forall file, In file files -> is_file os file = true) ->
  snd (tar_add_from os version_directory seen files) = None
  /\ Forall2 (member_of os version_directory) files
       (fst (tar_add_from os version_directory seen files)).
Proof.
  induction files as [|file rest IH]; intros seen Hread.
  - simpl. auto.
  - assert (Hrest : forall f, In f rest -> is_file os f = true)
      by (intros f Hf; apply Hread; now right).
    assert (Hfile : is_file os file = true) by (apply Hread; now left).
    unfold is_file in Hfile.
    destruct (read os file) as [content|] eqn:E; [|discriminate].
    assert (Hcons : forall seen' m,
              member_of os version_directory file m ->
              snd (let (members, e) :=
                     tar_add_from os version_directory seen' rest in
                   (m :: members, e)) = None
              /\ Forall2 (member_of os version_directory) (file :: rest)
                   (fst (let (members, e) :=
                           tar_add_from os version_directory seen' rest in
                         (m :: members, e)))).
    { intros seen' m Hm.
      destruct (IH seen' Hrest) as [IH1 IH2].
      destruct (tar_add_from os version_directory seen' rest) as [members e].
      cbn [fst snd] in *. split; [exact IH1|].
      constructor; [exact Hm | exact IH2]. }
    cbn [tar_add_from]. unfold gettarinfo.
    destruct (lstat os file) as [st_ino st_dev st_nlink|target] eqn:Hl.
    + assert (Hreg : member_of os version_directory file
                {| arcname := OsPath.relpath file version_directory;
                   type := REGTYPE; linkname := ""; data := content |}).
      { split; [reflexivity|]. unfold stored. rewrite Hl. left. cbn. auto. }
      cbv zeta.
      destruct (Nat.ltb 1 st_nlink) eqn:Hn;
        [|rewrite E; now apply Hcons].
      destruct (inode_get seen (st_ino, st_dev)) as [name|];
        [|rewrite E; now apply Hcons].
      destruct (negb (String.eqb (OsPath.relpath file version_directory) name));
        [|rewrite E; now apply Hcons].
      apply Nat.ltb_lt in Hn. apply Hcons.
      split; [reflexivity|]. unfold stored. rewrite Hl. right. cbn. auto.
    + apply Hcons. split; [reflexivity|]. unfold stored. rewrite Hl. cbn. auto.
Qed.

Lemma tar_add_all_readable (files : list string) :
  (forall file, In file files -> is_file os file = true) ->
  snd (tar_add_all os version_directory files) = None
  /\ Forall2 (member_of os version_directory) files
       (fst (tar_add_all os version_directory files)).
Proof. apply tar_add_from_readable. Qed.

Variable tarball_directory : string.

(** The loop over the collections writes one tarball per collection, in
    the order of the dictionary. *)
Lemma compress_readable (items : dict (list string)) :
  forall final_tarballs : list string,
  (forall file, In file (flatten items) -> is_file os file = true) ->
  compress os version_directory tarball_directory items final_tarballs =
  (Ok (final_tarballs ++ map (tarball_path tarball_directory) items),
   map (tarball_of os version_directory tarball_directory) items).
Proof.
  induction items as [|[name files] rest IH]; intros acc Hread.
  - simpl. now rewrite app_nil_r.
  - cbn [compress].
    destruct (tar_add_all_readable files) as [He _].
    { intros f Hf. apply Hread. unfold flatten. simpl. apply in_or_app. now left. }
    cbn [map]. unfold tarball_of at 1. cbn [fst snd].
    destruct (tar_add_all os version_directory files) as [members e].
    cbn [fst snd] in *. subst e.
    rewrite IH.
    + unfold bind, emit, ret. cbn [app]. rewrite <- app_assoc. reflexivity.
    + intros f Hf. apply Hread. unfold flatten. simpl. apply in_or_app. now right.
Qed.

End Stages.

Section Upload.
Variable os : Env.
Variables owner repository token body : string.
Variable pre : bool.
Variable tag : string.

Let cmd_of := ghr_cmd owner repository token body pre tag.

(** While every upload exits with 0, the loop goes on. *)
Lemma upload_ok (final_tarballs : list string) :
  (forall t, In t final_tarballs -> returncode os (cmd_of t) = 0) ->
  upload os owner repository token body pre tag final_tarballs =
  (Ok tt, map (fun t => Run (cmd_of t) 0) final_tarballs).
Proof.
  induction final_tarballs as [|t rest IH]; intros Hok; [reflexivity|].
  cbn [upload]. unfold check_call. fold (cmd_of t).
  rewrite (Hok t) by now left.
  rewrite IH by (intros u Hu; apply Hok; now right).
  reflexivity.
Qed.

(** The first upload that exits with another status ends the loop. *)
Lemma upload_fails (before after : list string) (t : string) (status : nat) :
  (forall u, In u before -> returncode os (cmd_of u) = 0) ->
  returncode os (cmd_of t) = S status ->
  upload os owner repository token body pre tag (before ++ t :: after) =
  (Raise (CalledProcessError (S status) (cmd_of t)),
   map (fun u => Run (cmd_of u) 0) before ++ [Run (cmd_of t) (S status)]).
Proof.
  intros Hbefore Ht.
  induction before as [|u before IH].
  - cbn [app upload map]. unfold check_call. fold (cmd_of t). rewrite Ht.
    reflexivity.
  - cbn [app upload map]. unfold check_call. fold (cmd_of u).
    rewrite (Hbefore u) by now left.
    rewrite IH by (intros v Hv; apply Hbefore; now right).
    reflexivity.
Qed.

(** Every event of the loop is the run of the upload of one tarball. *)
Lemma upload_events (final_tarballs : list string) (ev : event) :
  In ev (snd (upload os owner repository token body pre tag final_tarballs)) ->
  exists t, In t final_tarballs /\ ev = Run (cmd_of t) (returncode os (cmd_of t)).
Proof.
  induction final_tarballs as [|t rest IH]; [contradiction|].
  cbn [upload]. unfold check_call. fold (cmd_of t).
  destruct (returncode os (cmd_of t)) as [|n] eqn:E.
  - destruct (upload os owner repository token body pre tag rest) as [r evs].
    simpl. intros [<-|Hin].
    + exists t. rewrite E. auto.
    + destruct (IH Hin) as (u & Hu & ->). exists u. auto.
  - simpl. intros [<-|[]]. exists t. rewrite E. auto.
Qed.

End Upload.
Section Push.
Variable os : Env.
Variables pdk_root pdk_family version owner repository : string.
Variable pre : bool.
Variable push_libraries : option (list string).
Variable family : Family.
Variable token : string.

Let version_directory := get_dir os version pdk_family pdk_root.
Let libraries := library_list family push_libraries.
Let directory := tarball_directory os version.

Lemma has_common_initial : has_common [("common", @nil string)].
Proof. unfold has_common. simpl. discriminate. Qed.

Lemma partition_sound (d : string) (libs : list string) (cs : dict (list string)) :
  partition os d libs = Ok cs ->
  forall file, In file (flatten cs) ->
  exists parts, In parts (glob os d) /\ file = str_path d parts
                /\ is_file os file = true.
Proof.
  intros H file Hin.
  destruct (collect_sound os d libs _ _ _ has_common_initial H file Hin)
    as [[]|Hex].
  exact Hex.
Qed.

Hypothesis Hfamily : get (by_name os) pdk_family = Some family.
Hypothesis Htoken : github_token os = Some token.
Hypothesis Hisdir : isdir os version_directory = true.

(** A partition that raises ends [push] right after the tarball directory
    was made. *)
Lemma push_partition_raises (e : exn) :
  partition os version_directory libraries = Raise e ->
  push os pdk_root pdk_family version owner repository pre push_libraries =
  (Raise e, [Mkdirp directory]).
Proof.
  intros H. unfold push, lift, getitem. rewrite Hfamily, Htoken.
  cbn [bind ret app]. fold version_directory. rewrite Hisdir. cbn [negb].
  fold libraries. rewrite H. reflexivity.
Qed.

(** After a partition that went through, [push] writes one tarball per
    collection and then runs the uploads. *)
Lemma push_partition_ok (cs : dict (list string)) :
  partition os version_directory libraries = Ok cs ->
  push os pdk_root pdk_family version owner repository pre push_libraries =
  let uploads :=
    upload os owner repository token
      (release_body os family pdk_family version) pre
      (release_tag pdk_family version) (map (tarball_path directory) cs) in
  (fst uploads,
   Mkdirp directory
   :: map (tarball_of os version_directory directory) cs ++ snd uploads).
Proof.
  intros H. unfold push, lift, getitem. rewrite Hfamily, Htoken.
  cbn [bind ret app]. fold version_directory. rewrite Hisdir. cbn [negb].
  fold libraries. rewrite H. fold directory.
  rewrite compress_readable.
  - unfold bind, emit. cbn [app].
    destruct (upload os owner repository token
                (release_body os family pdk_family version) pre
                (release_tag pdk_family version)
                (map (tarball_path directory) cs)) as [r evs].
    reflexivity.
  - intros file Hin.
    destruct (partition_sound _ _ _ H file Hin) as (_ & _ & _ & Hfile).
    exact Hfile.
Qed.

End Push.
End PushFacts.

(** ** What the collections hold *)

Module PackagedFacts.
Import OsPath OsPathFacts PathFacts Py Build Tree DictFacts PartitionFacts PushFacts.

Section Packaged.
Variable os : Env.
Variable version_directory : string.
Variable library_list : list string.

Let path_of := str_path version_directory.

Lemma well_formed_In (entries : list (list string)) (parts : list string) :
  well_formed entries = true -> In parts entries -> entry_ok parts = true.
Proof. unfold well_formed. rewrite forallb_forall. auto. Qed.

Lemma packaged_In (entries : list (list string)) (parts : list string) :
  In parts (packaged os version_directory library_list entries) <->
  In parts entries /\ is_file os (path_of parts) = true
  /\ unrequested library_list parts = false.
Proof.
  unfold packaged. rewrite filter_In, andb_true_iff, negb_true_iff. tauto.
Qed.

Lemma regular_files_In (parts : list string) :
  In parts (regular_files os version_directory) <->
  In parts (glob os version_directory) /\ is_file os (path_of parts) = true.
Proof. unfold regular_files. now rewrite filter_In. Qed.

(** Among well-formed entries a path names one entry. *)
Lemma path_of_In (entries : list (list string)) (parts : list string) :
  (forall q, In q entries -> entry_ok q = true) -> entry_ok parts = true ->
  In (path_of parts) (map path_of entries) -> In parts entries.
Proof.
  intros Hwf Hok Hin. apply in_map_iff in Hin as (q & Heq & Hq).
  apply str_path_inj in Heq; [now subst q | now apply Hwf | assumption].
Qed.

(** The collections of a partition that went through hold the packaged
    files, each as often as the enumeration yielded it. *)
Lemma partition_flatten (cs : dict (list string)) :
  well_formed (glob os version_directory) = true ->
  partition os version_directory library_list = Ok cs ->
  Permutation (flatten cs)
    (map path_of
       (packaged os version_directory library_list (glob os version_directory))).
Proof.
  intros Hwf H.
  exact (collect_perm os version_directory library_list _ _ _
           has_common_initial Hwf H).
Qed.

Lemma partition_holds (cs : dict (list string)) (parts : list string) :
  well_formed (glob os version_directory) = true ->
  partition os version_directory library_list = Ok cs ->
  In parts (glob os version_directory) ->
  In (path_of parts) (flatten cs) <->
  is_file os (path_of parts) = true /\ unrequested library_list parts = false.
Proof.
  intros Hwf H Hin.
  pose proof (partition_flatten cs Hwf H) as Hperm.
  split.
  - intros Hflat. apply (Permutation_in _ Hperm) in Hflat.
    apply path_of_In in Hflat.
    + apply packaged_In in Hflat. tauto.
    + intros q Hq. apply packaged_In in Hq as [Hq _].
      now apply (well_formed_In _ _ Hwf).
    + now apply (well_formed_In _ _ Hwf).
  - intros [Hfile Hreq]. apply (Permutation_in _ (Permutation_sym Hperm)).
    apply in_map. apply packaged_In. auto.
Qed.

Lemma flatten_In (cs : dict (list string)) (file : string) :
  In file (flatten cs) <-> exists name files, In (name, files) cs /\ In file files.
Proof.
  unfold flatten. rewrite in_concat. split.
  - intros (files & Hfiles & Hin). apply in_map_iff in Hfiles as ([name fs] & <- & Hitem).
    exists name, fs. auto.
  - intros (name & files & Hitem & Hin). exists files. split; [|exact Hin].
    apply in_map_iff. exists (name, files). auto.
Qed.


End Packaged.
End PackagedFacts.

(** ** The events of [push] *)

Module EventFacts.
Import OsPath OsPathFacts PathFacts Py Build Tree DictFacts PartitionFacts.
Import PushFacts PackagedFacts.

Lemma members_of_app (a b : list event) :
  members_of (a ++ b) = members_of a ++ members_of b.
Proof.
  induction a as [|[d|path members|cmd status] a IH]; simpl; try exact IH.
  - reflexivity.
  - now rewrite IH, app_assoc.
Qed.

Lemma members_of_runs (events : list event) :
  (forall ev, In ev events -> exists cmd status, ev = Run cmd status) ->
  members_of events = [].
Proof.
  induction events as [|ev events IH]; intros Hruns; [reflexivity|].
  destruct (Hruns ev (or_introl eq_refl)) as (cmd & status & ->). simpl.
  apply IH. intros ev Hev. apply Hruns. now right.
Qed.

Lemma members_of_tarballs (os : Env) (version_directory directory : string)
    (cs : dict (list string)) :
  members_of (map (tarball_of os version_directory directory) cs) =
  List.concat (map (fun item => fst (tar_add_all os version_directory (snd item))) cs).
Proof.
  induction cs as [|item cs IH]; simpl; [reflexivity | now rewrite IH].
Qed.

Lemma published_app (a b : list event) :
  published (a ++ b) = published a ++ published b.
Proof.
  induction a as [|[d|path members|cmd [|n]] a IH]; simpl; try exact IH.
  - reflexivity.
  - now rewrite IH.
Qed.

Lemma published_tarballs (os : Env) (version_directory directory : string)
    (cs : dict (list string)) :
  published (map (tarball_of os version_directory directory) cs) = [].
Proof. induction cs as [|item cs IH]; simpl; [reflexivity | exact IH]. Qed.

Lemma published_ok (cmd_of : string -> list string) (l : list string) :
  published (map (fun t => Run (cmd_of t) 0) l) = map cmd_of l.
Proof. induction l as [|t l IH]; simpl; [reflexivity | now rewrite IH]. Qed.




Lemma Forall2_strengthen {A B : Type} (R R' : A -> B -> Prop)
    (l : list A) (l' : list B) :
  Forall2 R l l' ->
  (forall x y, In x l -> R x y -> R' x y) ->
  Forall2 R' l l'.
Proof.
  induction 1 as [|x y l l' Hxy HF IH]; intros Himp; constructor.
  - apply Himp; [now left | exact Hxy].
  - apply IH. intros a b Ha. apply Himp. now right.
Qed.

(** The loop over the tarballs always runs the upload of the first. *)
Lemma upload_first (os : Env) (owner repository token body : string)
    (pre : bool) (tag t : string) (rest : list string) :
  exists events,
    snd (upload os owner repository token body pre tag (t :: rest)) =
    Run (ghr_cmd owner repository token body pre tag t)
        (returncode os (ghr_cmd owner repository token body pre tag t))
    :: events.
Proof.
  cbn [upload]. unfold check_call.
  destruct (returncode os (ghr_cmd owner repository token body pre tag t)).
  - destruct (upload os owner repository token body pre tag rest) as [r evs].
    simpl. eauto.
  - simpl. eauto.
Qed.

End EventFacts.

(** ** Where files go *)

Module PlacementFacts.
Import OsPath OsPathFacts PathFacts Py Build Tree DictFacts PartitionFacts.
Import PushFacts PackagedFacts Placement.

Lemma extended_nil (o : option (list string)) : extended o [] = o.
Proof. destruct o as [l|]; simpl; [now rewrite app_nil_r | reflexivity]. Qed.

Lemma extended_app (o : option (list string)) (a b : list string) :
  extended (extended o a) b = extended o (a ++ b).
Proof.
  destruct o as [l|]; simpl.
  - now rewrite app_assoc.
  - destruct a as [|x a]; reflexivity.
Qed.

Lemma get_or_empty_extended (d : dict (list string)) (k x : string) :
  Some (get_or_empty d k ++ [x]) = extended (get d k) [x].
Proof.
  unfold get_or_empty. destruct (get d k) as [[|y l]|]; reflexivity.
Qed.

Section Placement.
Variable os : Env.
Variable version_directory : string.
Variable library_list : list string.

Let path_of := str_path version_directory.
Let assigned_to := assigned os version_directory library_list.

Lemma assigned_cons (name : string) (parts : list string)
    (rest : list (list string)) :
  assigned_to name (parts :: rest) =
  assigned_to name [parts] ++ assigned_to name rest.
Proof.
  unfold assigned_to, assigned, packaged.
  change (parts :: rest) with ([parts] ++ rest).
  now rewrite !filter_app, map_app.
Qed.

(** What one round of the loop does to the list under each key. *)
Lemma classify_get (d d' : dict (list string)) (parts : list string)
    (name : string) :
  has_common d -> entry_ok parts = true ->
  classify os version_directory library_list d parts = Ok d' ->
  get d' name = extended (get d name) (assigned_to name [parts]).
Proof.
  intros Hc Hok H. unfold assigned_to, assigned, packaged. cbn [filter].
  fold (path_of parts).
  destruct (is_file os (path_of parts)) eqn:Hfile; cbn [andb].
  2:{ rewrite classify_not_file in H by assumption. injection H as <-.
      cbn [filter map]. now rewrite extended_nil. }
  rewrite classify_file in H by assumption.
  destruct parts as [|c0 [|c1 rest]]; try discriminate.
  unfold unrequested, destination. cbn [nth_error].
  destruct (String.eqb_spec c1 "libs.ref") as [->|Hc1].
  - destruct rest as [|lib rest]; [discriminate|]. cbn [nth_error andb].
    destruct (mem lib library_list); cbn [negb filter].
    + rewrite (append_to_present _ lib _ (get_or_empty d lib)) in H
        by (rewrite get_set, String.eqb_refl; reflexivity).
      injection H as <-. rewrite !get_set, String.eqb_refl.
      rewrite (String.eqb_sym lib name).
      destruct (String.eqb_spec name lib) as [->|Hne]; cbn [filter map].
      * apply get_or_empty_extended.
      * now rewrite extended_nil.
    + injection H as <-. cbn [map]. now rewrite extended_nil.
  - unfold has_common in Hc.
    destruct (get d "common") as [l|] eqn:Hcommon; [|contradiction].
    rewrite (append_to_present _ _ _ l Hcommon) in H. injection H as <-.
    rewrite get_set.
    assert (Hlast :
      (if String.eqb "common" name then Some (l ++ [path_of (c0 :: c1 :: rest)])
       else get d name) =
      extended (get d name)
        (map (str_path version_directory)
           (if String.eqb "common" name then [c0 :: c1 :: rest] else []))).
    { destruct (String.eqb_spec "common" name) as [<-|Hne]; cbn [map].
      - now rewrite Hcommon.
      - now rewrite extended_nil. }
    rewrite (String.eqb_sym name "common").
    destruct rest as [|lib rest]; cbn [nth_error andb negb filter];
      rewrite ?(proj2 (String.eqb_neq _ _) Hc1); exact Hlast.
Qed.

Lemma collect_get (path_it : list (list string)) :
  forall (d cs : dict (list string)) (name : string),
  has_common d -> well_formed path_it = true ->
  collect os version_directory library_list d path_it = Ok cs ->
  get cs name = extended (get d name) (assigned_to name path_it).
Proof.
  induction path_it as [|parts rest IH]; intros d cs name Hc Hwf H.
  - injection H as <-. unfold assigned_to, assigned. cbn.
    now rewrite extended_nil.
  - cbn [collect] in H. cbn [well_formed forallb] in Hwf.
    apply andb_true_iff in Hwf as [Hok Hwf].
    destruct (classify os version_directory library_list d parts) as [d'|e] eqn:E;
      cbn [rbind] in H; [|discriminate].
    destruct (classify_ok os version_directory library_list d d' parts Hc Hok E)
      as [Hc' _].
    rewrite (IH d' cs name Hc' Hwf H).
    rewrite (classify_get d d' parts name Hc Hok E).
    now rewrite extended_app, <- assigned_cons.
Qed.

(** Whatever every assignment to a key keeps, the loop body keeps. *)
Lemma classify_preserves (P : dict (list string) -> Prop)
    (d d' : dict (list string)) (parts : list string) :
  (forall d k v, P d -> P (set d k v)) -> P d ->
  classify os version_directory library_list d parts = Ok d' -> P d'.
Proof.
  intros Hset Hd. unfold classify.
  destruct (is_file os (str_path version_directory parts)); cbn [negb];
    [|now intros [= <-]].
  destruct (index _ 1) as [c1|e]; cbn [rbind]; [|discriminate].
  assert (Happend : forall d0 k x d1,
            P d0 -> append_to d0 k x = Ok d1 -> P d1).
  { intros d0 k x d1 Hd0. unfold append_to, getitem.
    destruct (get d0 k); cbn [rbind]; [|discriminate].
    intros [= <-]. now apply Hset. }
  destruct (String.eqb c1 "libs.ref").
  - destruct (index _ 2) as [lib|e]; cbn [rbind]; [|discriminate].
    destruct (mem lib library_list); cbn [negb]; [|now intros [= <-]].
    apply Happend. now apply Hset.
  - now apply Happend.
Qed.

Lemma collect_preserves (P : dict (list string) -> Prop)
    (path_it : list (list string)) :
  (forall d k v, P d -> P (set d k v)) ->
  forall d cs : dict (list string), P d ->
  collect os version_directory library_list d path_it = Ok cs -> P cs.
Proof.
  intros Hset.
  induction path_it as [|parts rest IH]; intros d cs Hd H.
  - now injection H as <-.
  - cbn [collect] in H.
    destruct (classify os version_directory library_list d parts) as [d'|e] eqn:E;
      cbn [rbind] in H; [|discriminate].
    apply (IH d' cs); [|exact H].
    exact (classify_preserves P d d' parts Hset Hd E).
Qed.

End Placement.

Lemma get_None_keys {V : Type} (d : dict V) (k : string) :
  get d k = None -> ~ In k (map fst d).
Proof.
  induction d as [|[k0 v0] d IH]; simpl; [tauto|].
  destruct (String.eqb_spec k k0) as [->|Hne]; [discriminate|].
  intros H [E|Hin]; [now symmetry in E | now apply IH].
Qed.

Lemma set_keys {V : Type} (d : dict V) (k : string) (v : V) :
  map fst (set d k v) =
  match get d k with
  | Some _ => map fst d
  | None => map fst d ++ [k]
  end.
Proof.
  induction d as [|[k0 v0] d IH]; simpl; [reflexivity|].
  destruct (String.eqb k k0); simpl; [reflexivity|].
  rewrite IH. now destruct (get d k).
Qed.

Lemma set_keys_NoDup {V : Type} (d : dict V) (k : string) (v : V) :
  NoDup (map fst d) -> NoDup (map fst (set d k v)).
Proof.
  intros Hnd. rewrite set_keys. destruct (get d k) eqn:E; [exact Hnd|].
  apply NoDup_app; [exact Hnd | repeat constructor; simpl; tauto|].
  intros x Hx [E'|[]]. subst x. now apply (get_None_keys d k).
Qed.

Lemma set_head {V : Type} (d : dict V) (k k0 : string) (v : V) :
  (exists v0 rest, d = (k0, v0) :: rest) ->
  exists v0 rest, set d k v = (k0, v0) :: rest.
Proof.
  intros (v0 & rest & ->). simpl. destruct (String.eqb k k0); eauto.
Qed.

Lemma In_get_NoDup {V : Type} (d : dict V) (k : string) (v : V) :
  NoDup (map fst d) -> In (k, v) d -> get d k = Some v.
Proof.
  induction d as [|[k0 v0] d IH]; simpl; [tauto|].
  intros Hnd [E|Hin].
  - injection E as -> ->. now rewrite String.eqb_refl.
  - apply NoDup_cons_iff in Hnd as [Hk0 Hnd].
    destruct (String.eqb_spec k k0) as [->|_]; [|now apply IH].
    elim Hk0. apply in_map_iff. exists (k0, v). auto.
Qed.

Lemma forallb_false_In {A : Type} (f : A -> bool) (l : list A) :
  forallb f l = false -> exists x, In x l /\ f x = false.
Proof.
  induction l as [|x l IH]; simpl; [discriminate|].
  destruct (f x) eqn:E; simpl.
  - intros H. destruct (IH H) as (y & Hy & Hfy). eauto.
  - intros _. eauto.
Qed.

(** The loop body asks of the allow-list only whether it holds a name. *)
Lemma classify_mem (os : Env) (version_directory : string)
    (l1 l2 : list string) (d : dict (list string)) (parts : list string) :
  (forall x, mem x l1 = mem x l2) ->
  classify os version_directory l1 d parts =
  classify os version_directory l2 d parts.
Proof.
  intros Hmem. unfold classify.
  destruct (is_file os (str_path version_directory parts)); [|reflexivity].
  cbn [negb]. destruct (index _ 1) as [c1|e]; cbn [rbind]; [|reflexivity].
  destruct (String.eqb c1 "libs.ref"); [|reflexivity].
  destruct (index _ 2) as [lib|e]; cbn [rbind]; [|reflexivity].
  now rewrite Hmem.
Qed.

Lemma collect_mem (os : Env) (version_directory : string)
    (l1 l2 : list string) (path_it : list (list string)) :
  (forall x, mem x l1 = mem x l2) ->
  forall d, collect os version_directory l1 d path_it =
            collect os version_directory l2 d path_it.
Proof.
  intros Hmem. induction path_it as [|parts rest IH]; intros d; [reflexivity|].
  cbn [collect]. rewrite (classify_mem os version_directory l1 l2 d parts Hmem).
  destruct (classify os version_directory l2 d parts); cbn [rbind];
    [apply IH | reflexivity].
Qed.

End PlacementFacts.

(** ** The names of the collections and of their tarballs *)

Module NameFacts.
Import OsPath OsPathFacts PathFacts Py Build Tree DictFacts PartitionFacts.
Import PushFacts PackagedFacts EventFacts Placement PlacementFacts.

Lemma length_append (a b : string) :
  String.length (a ++ b) = String.length a + String.length b.
Proof. induction a as [|x a IH]; simpl; [reflexivity | now rewrite IH]. Qed.

Lemma append_cancel_r (s : string) : forall a b : string,
  (a ++ s = b ++ s)%string -> a = b.
Proof.
  induction a as [|x a IH]; intros [|y b] H.
  - reflexivity.
  - apply (f_equal String.length) in H. simpl in H. rewrite length_append in H. lia.
  - apply (f_equal String.length) in H. simpl in H. rewrite length_append in H. lia.
  - simpl in H. injection H as -> H. f_equal. now apply IH.
Qed.

(** Joining a relative name onto a directory puts the same text in front
    of every name. *)
Lemma join_relative (directory b : string) :
  startswith_sep b = false ->
  join directory [b] =
  ((if is_empty directory || endswith_sep directory then directory
    else directory ++ sep) ++ b)%string.
Proof.
  intros Hb. unfold join. cbn [fold_left]. unfold join_step. rewrite Hb.
  destruct (is_empty directory || endswith_sep directory); [reflexivity|].
  now rewrite append_assoc.
Qed.

Lemma tarball_name_relative (name : string) :
  startswith_sep name = false -> startswith_sep (tarball_name name) = false.
Proof. unfold tarball_name. destruct name; simpl; auto. Qed.

Lemma tarball_path_inj (directory : string) (i j : string * list string) :
  startswith_sep (fst i) = false -> startswith_sep (fst j) = false ->
  tarball_path directory i = tarball_path directory j -> fst i = fst j.
Proof.
  intros Hi Hj. unfold tarball_path.
  rewrite !join_relative by now apply tarball_name_relative.
  intros H. apply append_cancel_l in H. unfold tarball_name in H.
  now apply append_cancel_r in H.
Qed.

Section Names.
Variable os : Env.
Variable version_directory : string.
Variable library_list : list string.

(** The names of the collections: no name twice, and each is ["common"]
    or the third component of a packaged file below ["libs.ref"]. *)
Lemma partition_keys (cs : dict (list string)) :
  well_formed (glob os version_directory) = true ->
  partition os version_directory library_list = Ok cs ->
  NoDup (map fst cs)
  /\ forall name fs, In (name, fs) cs ->
       name = "common"
       \/ exists c0 rest,
            In (c0 :: "libs.ref" :: name :: rest)
               (packaged os version_directory library_list
                  (glob os version_directory)).
Proof.
  intros Hwf H.
  assert (Hnd : NoDup (map fst cs)).
  { apply (collect_preserves os version_directory library_list
             (fun d => NoDup (map fst d)) (glob os version_directory)
             (fun d k v => set_keys_NoDup d k v) [("common", [])] cs);
      [repeat constructor; simpl; tauto | exact H]. }
  split; [exact Hnd|].
  intros name fs Hin.
  destruct (String.eqb_spec name "common") as [->|Hne]; [now left|]. right.
  pose proof (In_get_NoDup cs name fs Hnd Hin) as Hget.
  rewrite (collect_get os version_directory library_list _ _ _ name
             has_common_initial Hwf H) in Hget.
  cbn [get] in Hget. apply String.eqb_neq in Hne as Hneb. rewrite Hneb in Hget.
  unfold extended in Hget.
  destruct (assigned os version_directory library_list name
              (glob os version_directory)) as [|file more] eqn:Hassigned;
    [discriminate|].
  assert (Hfile : In file (assigned os version_directory library_list name
                             (glob os version_directory)))
    by (rewrite Hassigned; now left).
  unfold assigned in Hfile. apply in_map_iff in Hfile as (parts & _ & Hparts).
  apply filter_In in Hparts as [Hpack Hdest].
  apply String.eqb_eq in Hdest. unfold destination in Hdest.
  destruct parts as [|c0 [|c1 [|lib rest]]]; try congruence.
  destruct (String.eqb_spec c1 "libs.ref") as [->|]; [|congruence].
  subst lib. eauto.
Qed.

Lemma partition_names_relative (cs : dict (list string)) (name : string)
    (fs : list string) :
  well_formed (glob os version_directory) = true ->
  partition os version_directory library_list = Ok cs ->
  In (name, fs) cs -> startswith_sep name = false.
Proof.
  intros Hwf H Hin.
  destruct (partition_keys cs Hwf H) as [_ Hkeys].
  destruct (Hkeys name fs Hin) as [->|(c0 & rest & Hpack)]; [reflexivity|].
  apply packaged_In in Hpack as (Hglob & _ & _).
  pose proof (well_formed_In _ _ Hwf Hglob) as Hok.
  apply entry_ok_file_names in Hok. rewrite forallb_forall in Hok.
  apply file_name_startswith. apply Hok. simpl. auto.
Qed.

(** No two collections are written to the same tarball. *)
Lemma tarball_paths_NoDup (directory : string) (cs : dict (list string)) :
  well_formed (glob os version_directory) = true ->
  partition os version_directory library_list = Ok cs ->
  NoDup (map (tarball_path directory) cs).
Proof.
  intros Hwf H. destruct (partition_keys cs Hwf H) as [Hnd _].
  assert (Hrel : forall item, In item cs -> startswith_sep (fst item) = false).
  { intros [name fs] Hin. exact (partition_names_relative cs name fs Hwf H Hin). }
  clear H. induction cs as [|item cs IH]; [constructor|].
  cbn [map] in *. apply NoDup_cons_iff in Hnd as [Hno Hnd].
  constructor.
  - intros Hin. apply in_map_iff in Hin as (other & Heq & Hother).
    apply tarball_path_inj in Heq;
      [|apply Hrel; now right | apply Hrel; now left].
    apply Hno. rewrite <- Heq. now apply in_map.
  - apply IH; [exact Hnd|]. intros i Hi. apply Hrel. now right.
Qed.

End Names.

(** ["common"] stays the first collection. *)
Lemma partition_common_first (os : Env) (version_directory : string)
    (library_list : list string) (cs : dict (list string)) :
  partition os version_directory library_list = Ok cs ->
  exists files rest, cs = ("common", files) :: rest.
Proof.
  intros H.
  apply (collect_preserves os version_directory library_list
           (fun d => exists v0 rest, d = ("common", v0) :: rest)
           (glob os version_directory)
           (fun d k v => set_head d k "common" v)
           [("common", [])] cs); [eauto | exact H].
Qed.

End NameFacts.

(** * The properties of [push] *)

Module Properties.
Import OsPath OsPathFacts PathFacts Py Build Tree DictFacts PartitionFacts.
Import PushFacts PackagedFacts EventFacts Placement PlacementFacts NameFacts.
Import Examples.

(** C1, as stated, fails: with only [lib1] asked for, the regular file
    [sky130A/libs.ref/lib2/y.lef] is in no collection at all. *)
Lemma unrequested_file_in_no_collection :
  let y := ["sky130A"; "libs.ref"; "lib2"; "y.lef"] in
  exists cs,
    partition nested_env root ["lib1"] = Ok cs
    /\ In y (regular_files nested_env root)
    /\ occurrences cs (str_path root y) = 0
    /\ ~ exists name files, In (name, files) cs /\ In (str_path root y) files.
Proof.
  eexists. split; [vm_compute; reflexivity|].
  split; [vm_compute; auto 10|].
  split; [vm_compute; reflexivity|].
  intros (name & files & Hitem & Hin).
  simpl in Hitem. destruct Hitem as [E|[E|[]]]; injection E as <- <-;
    simpl in Hin; intuition discriminate.
Qed.

(** C1, amended: when the partition goes through, every regular file of a
    well-formed enumeration without repetitions is held exactly once by
    the collections, hence by exactly one of them, unless it lies below
    ["libs.ref"] in a library that was not asked for: such a file is held
    by none. *)
Theorem partition_holds_each_packaged_file_once
    (os : Env) (version_directory : string) (library_list : list string)
    (cs : dict (list string)) (parts : list string) :
  well_formed (glob os version_directory) = true ->
  NoDup (glob os version_directory) ->
  partition os version_directory library_list = Ok cs ->
  In parts (regular_files os version_directory) ->
  occurrences cs (str_path version_directory parts) =
  if unrequested library_list parts then 0 else 1.
Proof.
  intros Hwf Hnodup H Hreg.
  apply regular_files_In in Hreg as [Hin Hfile].
  pose proof (partition_flatten os version_directory library_list cs Hwf H) as Hperm.
  unfold occurrences.
  rewrite (proj1 (Permutation_count_occ string_dec _ _) Hperm).
  destruct (unrequested library_list parts) eqn:Hreq.
  - apply count_occ_not_In. intros Hmap.
    apply (Permutation_in _ (Permutation_sym Hperm)) in Hmap.
    apply (partition_holds os version_directory library_list cs parts Hwf H Hin)
      in Hmap as [_ Hno].
    congruence.
  - apply NoDup_count_occ'.
    + apply NoDup_map_NoDup_ForallPairs; [|now apply NoDup_filter].
      intros p q Hp Hq Heq.
      apply packaged_In in Hp as [Hp _], Hq as [Hq _].
      apply (str_path_inj version_directory);
        [now apply (well_formed_In _ _ Hwf) | now apply (well_formed_In _ _ Hwf)
        | exact Heq].
    + apply in_map. apply packaged_In. auto.
Qed.

Lemma nested_entries_NoDup : NoDup nested_entries.
Proof.
  unfold nested_entries.
  repeat (constructor; [simpl; intuition discriminate|]). constructor.
Qed.

Lemma partition_holds_each_packaged_file_once_witness :
  occurrences [("common", [str_path root ["sky130A"; "a.txt"]]);
               ("lib1", [str_path root ["sky130A"; "libs.ref"; "lib1"; "x.lef"]])]
    (str_path root ["sky130A"; "libs.ref"; "lib1"; "x.lef"]) = 1.
Proof.
  apply (partition_holds_each_packaged_file_once nested_env root ["lib1"]
           _ ["sky130A"; "libs.ref"; "lib1"; "x.lef"]).
  - reflexivity.
  - exact nested_entries_NoDup.
  - reflexivity.
  - simpl. auto.
Defined.

(** C2, as stated, fails twice.  On the tree of the example, [a.txt] lies at
    the top, and reading the second component of its path raises, so there
    is no result at all.  One level down, where the partition goes through,
    the file of the library [lib2], which was not asked for, is not in
    ["common"]. *)
Lemma example_tree_raises_and_unrequested_not_in_common :
  let y := ["sky130A"; "libs.ref"; "lib2"; "y.lef"] in
  partition flat_env root ["lib1"] = Raise IndexError
  /\ In y (regular_files nested_env root)
  /\ unrequested ["lib1"] y = true
  /\ exists cs files,
       partition nested_env root ["lib1"] = Ok cs
       /\ get cs "common" = Some files
       /\ ~ In (str_path root y) files.
Proof.
  split; [vm_compute; reflexivity|].
  split; [vm_compute; auto 10|].
  split; [reflexivity|].
  eexists. eexists. split; [vm_compute; reflexivity|].
  split; [reflexivity|].
  simpl. intuition discriminate.
Qed.

(** C2, amended: when the partition goes through, a regular file whose
    second component is ["libs.ref"] and whose third component is a library
    that was not asked for is in no collection, ["common"] included.  For
    the tree [{sky130A/a.txt, sky130A/libs.ref/lib1/x.lef,
    sky130A/libs.ref/lib2/y.lef}] and the allow-list [{lib1}] the result is
    [{"common": [sky130A/a.txt], "lib1": [sky130A/libs.ref/lib1/x.lef]}]. *)
Theorem unrequested_library_files_are_passed_over :
  (forall (os : Env) (version_directory : string) (library_list : list string)
          (cs : dict (list string)) (parts : list string),
     well_formed (glob os version_directory) = true ->
     partition os version_directory library_list = Ok cs ->
     In parts (regular_files os version_directory) ->
     unrequested library_list parts = true ->
     forall name files, In (name, files) cs ->
       ~ In (str_path version_directory parts) files)
  /\ partition nested_env root ["lib1"] =
     Ok [("common", [str_path root ["sky130A"; "a.txt"]]);
         ("lib1", [str_path root ["sky130A"; "libs.ref"; "lib1"; "x.lef"]])].
Proof.
  split; [|vm_compute; reflexivity].
  intros os version_directory library_list cs parts Hwf H Hreg Hun name files
    Hitem Hin.
  apply regular_files_In in Hreg as [Hglob Hfile].
  assert (Hflat : In (str_path version_directory parts) (flatten cs)).
  { apply flatten_In. exists name, files. auto. }
  apply (partition_holds os version_directory library_list cs parts Hwf H Hglob)
    in Hflat as [_ Hno].
  congruence.
Qed.

Lemma unrequested_library_files_are_passed_over_witness :
  ~ In (str_path root ["sky130A"; "libs.ref"; "lib2"; "y.lef"])
       [str_path root ["sky130A"; "a.txt"]].
Proof.
  apply (proj1 unrequested_library_files_are_passed_over nested_env root
           ["lib1"]
           [("common", [str_path root ["sky130A"; "a.txt"]]);
            ("lib1", [str_path root ["sky130A"; "libs.ref"; "lib1"; "x.lef"]])]
           ["sky130A"; "libs.ref"; "lib2"; "y.lef"]) with (name := "common").
  - reflexivity.
  - reflexivity.
  - simpl. auto 10.
  - reflexivity.
  - simpl. auto.
Defined.

(** On the tree with links, the tarball of [lib1] holds [x.lef] with its
    bytes, [z.lef] as a symbolic link, and [w.lef] as a hard link to
    [x.lef], which has the same inode and was added before it. *)
Example linked_tarball_members :
  fst (tar_add_all linked_env root
         [str_path root ["sky130A"; "libs.ref"; "lib1"; "x.lef"];
          str_path root ["sky130A"; "libs.ref"; "lib1"; "z.lef"];
          str_path root ["sky130A"; "libs.ref"; "lib1"; "w.lef"]]) =
  [{| arcname := "sky130A/libs.ref/lib1/x.lef"; type := REGTYPE;
      linkname := ""; data := [x02] |};
   {| arcname := "sky130A/libs.ref/lib1/z.lef"; type := SYMTYPE;
      linkname := "x.lef"; data := [] |};
   {| arcname := "sky130A/libs.ref/lib1/w.lef"; type := LNKTYPE;
      linkname := "sky130A/libs.ref/lib1/x.lef"; data := [] |}].
Proof. vm_compute. reflexivity. Qed.




(** C4: when [push] gets to the partition and the enumeration holds a
    regular file directly below the version directory, or a regular file
    named ["libs.ref"] one level down, the partition raises [IndexError];
    nothing in [push] handles it, so [push] ends with it, having made the
    tarball directory and nothing else. *)
Theorem push_raises_IndexError_on_shallow_file
    (os : Env) (pdk_root pdk_family version owner repository : string)
    (pre : bool) (push_libraries : option (list string))
    (family : Family) (token : string) (parts : list string) :
  get (by_name os) pdk_family = Some family ->
  github_token os = Some token ->
  isdir os (get_dir os version pdk_family pdk_root) = true ->
  In parts (regular_files os (get_dir os version pdk_family pdk_root)) ->
  (exists name, file_name name = true /\ parts = [name])
  \/ (exists name, file_name name = true /\ parts = [name; "libs.ref"]) ->
  partition os (get_dir os version pdk_family pdk_root)
    (library_list family push_libraries) = Raise IndexError
  /\ push os pdk_root pdk_family version owner repository pre push_libraries =
     (Raise IndexError, [Mkdirp (tarball_directory os version)]).
Proof.
  intros Hfamily Htoken Hisdir Hreg Hshallow.
  apply regular_files_In in Hreg as [Hglob Hfile].
  assert (H : partition os (get_dir os version pdk_family pdk_root)
                (library_list family push_libraries) = Raise IndexError).
  { apply (collect_shallow os _ _ _ _ parts has_common_initial Hglob).
    - destruct Hshallow as [(name & Hname & ->)|(name & Hname & ->)];
        simpl; now rewrite Hname.
    - exact Hfile.
    - destruct Hshallow as [(name & _ & ->)|(name & _ & ->)]; eauto. }
  split; [exact H|].
  now apply (push_partition_raises os pdk_root pdk_family version owner
               repository pre push_libraries family token).
Qed.

Lemma push_raises_IndexError_on_shallow_file_witness :
  (partition flat_env root ["lib1"] = Raise IndexError
   /\ push flat_env "/pdk" "sky130" "v1" "owner" "repo" false (Some ["lib1"]) =
      (Raise IndexError, [Mkdirp "/tmp/ciel/0000/v1"]))
  /\ (partition (env (Some "token") marker_entries marker_files (always 0))
        root ["lib1"; "lib2"] = Raise IndexError
      /\ push (env (Some "token") marker_entries marker_files (always 0))
           "/pdk" "sky130" "v1" "owner" "repo" false None =
         (Raise IndexError, [Mkdirp "/tmp/ciel/0000/v1"])).
Proof.
  split.
  - apply (push_raises_IndexError_on_shallow_file flat_env "/pdk" "sky130" "v1"
             "owner" "repo" false (Some ["lib1"]) sky130 "token" ["a.txt"]).
    + reflexivity.
    + reflexivity.
    + reflexivity.
    + simpl. auto.
    + left. exists "a.txt". split; reflexivity.
  - apply (push_raises_IndexError_on_shallow_file
             (env (Some "token") marker_entries marker_files (always 0))
             "/pdk" "sky130" "v1" "owner" "repo" false None sky130 "token"
             ["sky130A"; "libs.ref"]).
    + reflexivity.
    + reflexivity.
    + reflexivity.
    + simpl. auto.
    + right. exists "sky130A". split; reflexivity.
Defined.

(** C5, as stated, fails: without a token and with a family that is not
    registered, [push] raises the [KeyError] of the lookup in
    [Family.by_name], not the error about the token. *)
Lemma unknown_family_raises_KeyError_without_token :
  let os := env None nested_entries nested_files (always 0) in
  github_token os = None
  /\ push os "/pdk" "gf180mcu" "v1" "owner" "repo" false None =
     (Raise (KeyError "gf180mcu"), []).
Proof. split; reflexivity. Qed.

(** C5, amended: without a token [push] raises before it does anything: no
    directory is made, no tarball written, nothing run.  It raises the
    error about the token when the family is registered, and the
    [KeyError] of the family lookup otherwise. *)
Theorem push_without_token_raises_first
    (os : Env) (pdk_root pdk_family version owner repository : string)
    (pre : bool) (push_libraries : option (list string)) :
  github_token os = None ->
  push os pdk_root pdk_family version owner repository pre push_libraries =
  (match get (by_name os) pdk_family with
   | Some _ => Raise (TypeError "No GitHub token was provided.")
   | None => Raise (KeyError pdk_family)
   end, []).
Proof.
  intros Htoken. unfold push, lift, getitem.
  destruct (get (by_name os) pdk_family) as [family|]; [|reflexivity].
  rewrite Htoken. reflexivity.
Qed.

Lemma push_without_token_raises_first_witness :
  push (env None nested_entries nested_files (always 0))
    "/pdk" "sky130" "v1" "owner" "repo" false None =
  (Raise (TypeError "No GitHub token was provided."), []).
Proof.
  apply (push_without_token_raises_first
           (env None nested_entries nested_files (always 0))).
  reflexivity.
Defined.

(** C6: when the upload of one tarball exits with a status other than 0
    after the uploads before it went through, [push] ends with the
    [CalledProcessError] of that upload; the uploads after it are never
    run, and the uploads before it stay published: nothing is run after
    the upload that failed. *)
Theorem failed_upload_ends_push
    (os : Env) (pdk_root pdk_family version owner repository : string)
    (pre : bool) (push_libraries : option (list string))
    (family : Family) (token : string) (cs : dict (list string))
    (cmd_of : string -> list string)
    (before after : list string) (t : string) (status : nat) :
  get (by_name os) pdk_family = Some family ->
  github_token os = Some token ->
  isdir os (get_dir os version pdk_family pdk_root) = true ->
  partition os (get_dir os version pdk_family pdk_root)
    (library_list family push_libraries) = Ok cs ->
  cmd_of = ghr_cmd owner repository token
             (release_body os family pdk_family version) pre
             (release_tag pdk_family version) ->
  map (tarball_path (tarball_directory os version)) cs = before ++ t :: after ->
  (forall u, In u before -> returncode os (cmd_of u) = 0) ->
  returncode os (cmd_of t) = S status ->
  push os pdk_root pdk_family version owner repository pre push_libraries =
  (Raise (CalledProcessError (S status) (cmd_of t)),
   Mkdirp (tarball_directory os version)
   :: map (tarball_of os (get_dir os version pdk_family pdk_root)
             (tarball_directory os version)) cs
   ++ map (fun u => Run (cmd_of u) 0) before
   ++ [Run (cmd_of t) (S status)])
  /\ published
       (snd (push os pdk_root pdk_family version owner repository pre
               push_libraries)) = map cmd_of before.
Proof.
  intros Hfamily Htoken Hisdir H -> Hsplit Hbefore Ht.
  rewrite (push_partition_ok os pdk_root pdk_family version owner repository
             pre push_libraries family token Hfamily Htoken Hisdir cs H).
  cbn zeta. rewrite Hsplit.
  rewrite (upload_fails os owner repository token _ pre _ before after t status
             Hbefore Ht).
  cbn [fst snd]. split; [reflexivity|].
  cbn [published]. rewrite !published_app, published_tarballs, published_ok.
  cbn [published app]. now rewrite app_nil_r.
Qed.

Lemma failed_upload_ends_push_witness :
  let os := env (Some "token") nested_entries nested_files
              (fails_on "/tmp/ciel/0000/v1/lib1.tar.zst") in
  let cmd_of := ghr_cmd "owner" "repo" "token"
                  "sky130 variants built using ciel" false "sky130-v1" in
  fst (push os "/pdk" "sky130" "v1" "owner" "repo" false None) =
    Raise (CalledProcessError 1 (cmd_of "/tmp/ciel/0000/v1/lib1.tar.zst"))
  /\ published (snd (push os "/pdk" "sky130" "v1" "owner" "repo" false None)) =
     [cmd_of "/tmp/ciel/0000/v1/common.tar.zst"].
Proof.
  intros os cmd_of.
  destruct (failed_upload_ends_push os "/pdk" "sky130" "v1" "owner" "repo"
              false None sky130 "token"
              [("common", [str_path root ["sky130A"; "a.txt"]]);
               ("lib1", [str_path root ["sky130A"; "libs.ref"; "lib1"; "x.lef"]]);
               ("lib2", [str_path root ["sky130A"; "libs.ref"; "lib2"; "y.lef"]])]
              cmd_of
              ["/tmp/ciel/0000/v1/common.tar.zst"]
              ["/tmp/ciel/0000/v1/lib2.tar.zst"]
              "/tmp/ciel/0000/v1/lib1.tar.zst" 0) as [Hrun Hpub].
  - reflexivity.
  - reflexivity.
  - reflexivity.
  - reflexivity.
  - reflexivity.
  - reflexivity.
  - intros u [<-|[]]. reflexivity.
  - reflexivity.
  - split; [now rewrite Hrun | exact Hpub].
Defined.

(** C7: the tarball of a collection takes one member per file of the
    collection, in the order of the list.  The member made from a file
    stores the file, and its name is the path of the file relative to the
    version directory: the components below the version directory joined
    by the separator, which does not start with a separator and has
    nothing of the version directory in it. *)
Theorem tarball_members_follow_the_collection
    (os : Env) (version_directory directory : string)
    (library_list : list string) (cs : dict (list string))
    (name : string) (files : list string) :
  well_formed (glob os version_directory) = true ->
  partition os version_directory library_list = Ok cs ->
  In (name, files) cs ->
  In (Tarball (OsPath.join directory [(name ++ ".tar.zst")%string])
        (fst (tar_add_all os version_directory files)))
     (snd (compress os version_directory directory cs []))
  /\ Forall2
       (fun file m =>
          arcname m = relpath file version_directory
          /\ stored os file m
          /\ exists parts,
               In parts (regular_files os version_directory)
               /\ file = str_path version_directory parts
               /\ arcname m = String.concat sep parts
               /\ startswith_sep (arcname m) = false)
       files (fst (tar_add_all os version_directory files)).
Proof.
  intros Hwf H Hitem.
  assert (Hread : forall file, In file (flatten cs) -> is_file os file = true).
  { intros file Hin.
    now destruct (partition_sound os _ _ _ H file Hin) as (_ & _ & _ & Hfile). }
  split.
  - rewrite compress_readable by exact Hread. cbn [snd].
    apply in_map_iff. exists (name, files). auto.
  - assert (Hfiles : forall file, In file files -> In file (flatten cs)).
    { intros file Hin. apply flatten_In. exists name, files. auto. }
    destruct (tar_add_all_readable os version_directory files) as [_ HF];
      [auto|].
    apply (Forall2_strengthen _ _ _ _ HF).
    intros file m Hin [Harc Hdata].
    split; [exact Harc|]. split; [exact Hdata|].
    destruct (partition_sound os _ _ _ H file (Hfiles file Hin))
      as (parts & Hglob & -> & Hfile).
    pose proof (well_formed_In _ _ Hwf Hglob) as Hok.
    exists parts. split; [apply regular_files_In; auto|].
    split; [reflexivity|]. rewrite Harc.
    split; [now apply relpath_str_path | now apply relpath_not_absolute].
Qed.

Lemma tarball_members_follow_the_collection_witness :
  In (Tarball "/tmp/ciel/0000/v1/lib1.tar.zst"
        [{| arcname := "sky130A/libs.ref/lib1/x.lef"; type := REGTYPE;
            linkname := ""; data := [x02] |}])
     (snd (compress nested_env root "/tmp/ciel/0000/v1"
             [("common", [str_path root ["sky130A"; "a.txt"]]);
              ("lib1", [str_path root ["sky130A"; "libs.ref"; "lib1"; "x.lef"]])]
             [])).
Proof.
  apply (tarball_members_follow_the_collection nested_env root
           "/tmp/ciel/0000/v1" ["lib1"]
           [("common", [str_path root ["sky130A"; "a.txt"]]);
            ("lib1", [str_path root ["sky130A"; "libs.ref"; "lib1"; "x.lef"]])]
           "lib1" [str_path root ["sky130A"; "libs.ref"; "lib1"; "x.lef"]]).
  - reflexivity.
  - reflexivity.
  - simpl. auto.
Defined.




(** C9: once the partition went through, [push] writes for each
    collection the tarball [<name>.tar.zst] in the tarball directory, and
    writes no other.  Every upload it runs is a [ghr] command line whose
    last two words are the tag [<family>-<version>] and one of these
    tarballs; the upload of [common.tar.zst] is always run.  On a
    well-formed tree the path of a tarball is the tarball directory, a
    separator unless the directory is empty or ends with one, and
    [<name>.tar.zst]. *)
Theorem release_tag_and_tarball_names
    (os : Env) (pdk_root pdk_family version owner repository : string)
    (pre : bool) (push_libraries : option (list string))
    (family : Family) (token : string) (cs : dict (list string))
    (events : list event) :
  get (by_name os) pdk_family = Some family ->
  github_token os = Some token ->
  isdir os (get_dir os version pdk_family pdk_root) = true ->
  partition os (get_dir os version pdk_family pdk_root)
    (library_list family push_libraries) = Ok cs ->
  events = snd (push os pdk_root pdk_family version owner repository pre
                  push_libraries) ->
  (forall name files, In (name, files) cs ->
     exists members,
       In (Tarball (OsPath.join (tarball_directory os version)
                      [(name ++ ".tar.zst")%string]) members) events)
  /\ (forall path members, In (Tarball path members) events ->
        exists name files,
          In (name, files) cs
          /\ path = OsPath.join (tarball_directory os version)
                      [(name ++ ".tar.zst")%string])
  /\ (forall cmd status, In (Run cmd status) events ->
        exists name files,
          In (name, files) cs
          /\ cmd =
             ["ghr"; "-owner"; owner; "-repository"; repository;
              "-token"; token;
              "-body"; release_body os family pdk_family version;
              "-commitish"; "releases"; "-replace"]
             ++ (if pre then ["-prerelease"] else [])
             ++ [(pdk_family ++ "-" ++ version)%string;
                 OsPath.join (tarball_directory os version)
                   [(name ++ ".tar.zst")%string]])
  /\ (exists status,
        In (Run (["ghr"; "-owner"; owner; "-repository"; repository;
                  "-token"; token;
                  "-body"; release_body os family pdk_family version;
                  "-commitish"; "releases"; "-replace"]
                 ++ (if pre then ["-prerelease"] else [])
                 ++ [(pdk_family ++ "-" ++ version)%string;
                     OsPath.join (tarball_directory os version)
                       ["common.tar.zst"]])
                status) events)
  /\ (well_formed (glob os (get_dir os version pdk_family pdk_root)) = true ->
      forall name files, In (name, files) cs ->
        OsPath.join (tarball_directory os version)
          [(name ++ ".tar.zst")%string] =
        ((if is_empty (tarball_directory os version)
             || endswith_sep (tarball_directory os version)
          then tarball_directory os version
          else tarball_directory os version ++ "/")
         ++ name ++ ".tar.zst")%string).
Proof.
  intros Hfamily Htoken Hisdir H ->.
  rewrite (push_partition_ok os pdk_root pdk_family version owner repository
             pre push_libraries family token Hfamily Htoken Hisdir cs H).
  cbn zeta. cbn [snd].
  set (vd := get_dir os version pdk_family pdk_root).
  set (directory := tarball_directory os version).
  set (body := release_body os family pdk_family version).
  assert (Hcmd : forall t,
            ghr_cmd owner repository token body pre
              (release_tag pdk_family version) t =
            ["ghr"; "-owner"; owner; "-repository"; repository;
             "-token"; token; "-body"; body;
             "-commitish"; "releases"; "-replace"]
            ++ (if pre then ["-prerelease"] else [])
            ++ [(pdk_family ++ "-" ++ version)%string; t]).
  { intros t. unfold ghr_cmd, release_tag. now destruct pre. }
  set (uploads := upload os owner repository token body pre
                    (release_tag pdk_family version)
                    (map (tarball_path directory) cs)).
  split; [|split; [|split; [|split]]].
  - intros name files Hitem.
    exists (fst (tar_add_all os vd files)).
    right. apply in_or_app. left.
    apply in_map_iff. exists (name, files). auto.
  - intros path members [E|Hin]; [discriminate|].
    apply in_app_or in Hin as [Hin|Hin].
    + apply in_map_iff in Hin as ([name files] & E & Hitem).
      injection E as <- _. exists name, files. auto.
    + apply upload_events in Hin as (t & _ & E). discriminate.
  - intros cmd status [E|Hin]; [discriminate|].
    apply in_app_or in Hin as [Hin|Hin].
    + apply in_map_iff in Hin as (item & E & _). discriminate.
    + apply upload_events in Hin as (t & Ht & E). injection E as -> _.
      apply in_map_iff in Ht as ([name files] & <- & Hitem).
      exists name, files. split; [exact Hitem|]. apply Hcmd.
  - destruct (partition_common_first os _ _ _ H) as (files & rest & ->).
    destruct (upload_first os owner repository token body pre
                (release_tag pdk_family version)
                (tarball_path directory ("common", files))
                (map (tarball_path directory) rest)) as [evs Hevs].
    rewrite Hcmd in Hevs.
    eexists. right. apply in_or_app. right.
    unfold uploads. cbn [map]. rewrite Hevs. left. reflexivity.
  - intros Hwf name files Hitem.
    rewrite join_relative; [reflexivity|].
    apply (tarball_name_relative name).
    exact (partition_names_relative os vd _ cs name files Hwf H Hitem).
Qed.

Lemma release_tag_and_tarball_names_witness :
  let events := snd (push nested_env "/pdk" "sky130" "v1" "owner" "repo" true
                       (Some ["lib1"])) in
  (exists members,
     In (Tarball "/tmp/ciel/0000/v1/lib1.tar.zst" members) events)
  /\ (exists status,
        In (Run ["ghr"; "-owner"; "owner"; "-repository"; "repo";
                 "-token"; "token"; "-body"; "sky130 variants built using ciel";
                 "-commitish"; "releases"; "-replace"; "-prerelease";
                 "sky130-v1"; "/tmp/ciel/0000/v1/common.tar.zst"] status)
           events)
  /\ OsPath.join "/tmp/ciel/0000/v1" ["lib1.tar.zst"] =
     "/tmp/ciel/0000/v1/lib1.tar.zst".
Proof.
  destruct (release_tag_and_tarball_names nested_env "/pdk" "sky130" "v1"
              "owner" "repo" true (Some ["lib1"]) sky130 "token"
              [("common", [str_path root ["sky130A"; "a.txt"]]);
               ("lib1", [str_path root ["sky130A"; "libs.ref"; "lib1"; "x.lef"]])]
              (snd (push nested_env "/pdk" "sky130" "v1" "owner" "repo" true
                      (Some ["lib1"]))))
    as (Hwritten & _ & _ & Hrun & Hpath).
  - reflexivity.
  - reflexivity.
  - reflexivity.
  - reflexivity.
  - reflexivity.
  - split; [|split].
    + apply (Hwritten "lib1"
               [str_path root ["sky130A"; "libs.ref"; "lib1"; "x.lef"]]).
      simpl. auto.
    + exact Hrun.
    + apply (Hpath eq_refl "lib1"
               [str_path root ["sky130A"; "libs.ref"; "lib1"; "x.lef"]]).
      simpl. auto.
Defined.

(** C10: with no libraries given, [None] or an empty list, the allow-list
    is the full list of libraries of the family, and [push] does what it
    does when given that list. *)
Theorem no_library_subset_means_all_libraries
    (os : Env) (pdk_root pdk_family version owner repository : string)
    (pre : bool) (family : Family) :
  get (by_name os) pdk_family = Some family ->
  library_list family None = all_libraries family
  /\ library_list family (Some []) = all_libraries family
  /\ push os pdk_root pdk_family version owner repository pre None =
     push os pdk_root pdk_family version owner repository pre
       (Some (all_libraries family))
  /\ push os pdk_root pdk_family version owner repository pre (Some []) =
     push os pdk_root pdk_family version owner repository pre
       (Some (all_libraries family)).
Proof.
  intros Hfamily.
  assert (Hall : library_list family (Some (all_libraries family)) =
                 all_libraries family).
  { unfold library_list. now destruct (all_libraries family). }
  split; [reflexivity|]. split; [reflexivity|].
  unfold push, lift, getitem. rewrite Hfamily. cbn [bind].
  rewrite Hall. split; reflexivity.
Qed.

Lemma no_library_subset_means_all_libraries_witness :
  library_list sky130 None = ["lib1"; "lib2"]
  /\ library_list sky130 (Some []) = ["lib1"; "lib2"]
  /\ push nested_env "/pdk" "sky130" "v1" "owner" "repo" false None =
     push nested_env "/pdk" "sky130" "v1" "owner" "repo" false
       (Some ["lib1"; "lib2"])
  /\ push nested_env "/pdk" "sky130" "v1" "owner" "repo" false (Some []) =
     push nested_env "/pdk" "sky130" "v1" "owner" "repo" false
       (Some ["lib1"; "lib2"]).
Proof.
  apply (no_library_subset_means_all_libraries nested_env "/pdk" "sky130" "v1"
           "owner" "repo" false sky130).
  reflexivity.
Defined.

End Properties.

(** * Further properties *)

(** ** The partition, further *)

Module PartitionProperties.
Import OsPath OsPathFacts PathFacts Py Build Tree DictFacts PartitionFacts.
Import PushFacts PackagedFacts EventFacts Placement PlacementFacts Examples.

(** X1: on a well-formed enumeration the partition goes through exactly
    when every regular file has two components, and three when the second
    is ["libs.ref"]. *)
Theorem partition_goes_through_iff_files_deep_enough
    (os : Env) (version_directory : string) (library_list : list string) :
  well_formed (glob os version_directory) = true ->
  (exists cs, partition os version_directory library_list = Ok cs)
  <-> forallb deep_enough (regular_files os version_directory) = true.
Proof.
  intros Hwf.
  destruct (forallb deep_enough (regular_files os version_directory)) eqn:Hdeep.
  - split; [reflexivity|]. intros _.
    apply (collect_total os version_directory library_list
             (glob os version_directory) [("common", [])]
             has_common_initial Hwf).
    intros parts Hglob Hfile.
    assert (Hd : deep_enough parts = true).
    { rewrite forallb_forall in Hdeep. apply Hdeep.
      apply regular_files_In. auto. }
    destruct parts as [|c0 [|c1 rest]]; try discriminate.
    exists c0, c1, rest. split; [reflexivity|].
    intros -> ->. discriminate.
  - split; [|discriminate]. intros [cs H].
    apply forallb_false_In in Hdeep as (parts & Hreg & Hshallow).
    apply regular_files_In in Hreg as [Hglob Hfile].
    pose proof (well_formed_In _ _ Hwf Hglob) as Hok.
    unfold partition in H.
    rewrite (collect_shallow os version_directory library_list _ _ parts
               has_common_initial Hglob Hok Hfile) in H; [discriminate|].
    destruct parts as [|c0 [|c1 [|c2 rest]]]; try discriminate; eauto.
    + right. exists c0. simpl in Hshallow.
      destruct (String.eqb_spec c1 "libs.ref") as [->|]; [reflexivity | discriminate].
    + simpl in Hshallow. now rewrite orb_true_r in Hshallow.
Qed.

Lemma partition_goes_through_iff_files_deep_enough_witness :
  (exists cs, partition nested_env root ["lib1"] = Ok cs)
  /\ ~ (exists cs, partition flat_env root ["lib1"] = Ok cs).
Proof.
  split.
  - apply (partition_goes_through_iff_files_deep_enough nested_env root ["lib1"]);
      reflexivity.
  - intros H.
    apply (partition_goes_through_iff_files_deep_enough flat_env root ["lib1"])
      in H; [discriminate | reflexivity].
Defined.

(** X2: after a partition that went through, each collection lists, in
    the order of the enumeration, the packaged files that belong to it:
    the files of the library of that name below ["libs.ref"], and under
    ["common"] all the others.  A name to which no file belongs is not a
    key, ["common"] apart. *)
Theorem collections_list_their_files_in_order
    (os : Env) (version_directory : string) (library_list : list string)
    (cs : dict (list string)) (name : string) :
  well_formed (glob os version_directory) = true ->
  partition os version_directory library_list = Ok cs ->
  get cs name =
  if String.eqb name "common"
  then Some (assigned os version_directory library_list "common"
               (glob os version_directory))
  else match assigned os version_directory library_list name
               (glob os version_directory) with
       | [] => None
       | file :: files => Some (file :: files)
       end.
Proof.
  intros Hwf H.
  rewrite (collect_get os version_directory library_list _ _ _ name
             has_common_initial Hwf H).
  cbn [get]. destruct (String.eqb_spec name "common") as [->|Hne].
  - reflexivity.
  - now destruct (assigned os version_directory library_list name
                    (glob os version_directory)).
Qed.

Lemma collections_list_their_files_in_order_witness :
  get [("common", [str_path root ["sky130A"; "a.txt"]]);
       ("lib1", [str_path root ["sky130A"; "libs.ref"; "lib1"; "x.lef"]]);
       ("lib2", [str_path root ["sky130A"; "libs.ref"; "lib2"; "y.lef"]])]
      "lib2" =
  Some [str_path root ["sky130A"; "libs.ref"; "lib2"; "y.lef"]].
Proof.
  apply (collections_list_their_files_in_order nested_env root ["lib1"; "lib2"]
           [("common", [str_path root ["sky130A"; "a.txt"]]);
            ("lib1", [str_path root ["sky130A"; "libs.ref"; "lib1"; "x.lef"]]);
            ("lib2", [str_path root ["sky130A"; "libs.ref"; "lib2"; "y.lef"]])]
           "lib2").
  - reflexivity.
  - reflexivity.
Defined.

(** X3: in the result of a partition, ["common"] comes first, no name
    occurs twice, and every other collection is named after a library of
    the allow-list and holds at least one file: a library without files
    on the disk gets no collection. *)
Theorem collections_are_common_then_requested_libraries
    (os : Env) (version_directory : string) (library_list : list string)
    (cs : dict (list string)) :
  well_formed (glob os version_directory) = true ->
  partition os version_directory library_list = Ok cs ->
  exists files rest,
    cs = ("common", files) :: rest
    /\ NoDup (map fst cs)
    /\ forall name fs, In (name, fs) rest ->
         name <> "common" /\ mem name library_list = true /\ fs <> [].
Proof.
  intros Hwf H.
  assert (Hhead : exists files rest, cs = ("common", files) :: rest).
  { apply (collect_preserves os version_directory library_list
             (fun d => exists v0 rest, d = ("common", v0) :: rest)
             (glob os version_directory)
             (fun d k v => set_head d k "common" v)
             [("common", [])] cs); [eauto | exact H]. }
  assert (Hnd : NoDup (map fst cs)).
  { apply (collect_preserves os version_directory library_list
             (fun d => NoDup (map fst d)) (glob os version_directory)
             (fun d k v => set_keys_NoDup d k v) [("common", [])] cs);
      [repeat constructor; simpl; tauto | exact H]. }
  destruct Hhead as (files & rest & ->). exists files, rest.
  split; [reflexivity|]. split; [exact Hnd|].
  intros name fs Hin.
  assert (Hne : name <> "common").
  { intros ->. cbn [map fst] in Hnd. apply NoDup_cons_iff in Hnd as [Hno _].
    apply Hno. apply in_map_iff. exists ("common", fs). auto. }
  split; [exact Hne|].
  assert (Hget : get (("common", files) :: rest) name = Some fs)
    by (apply In_get_NoDup; [exact Hnd | now right]).
  rewrite (collect_get os version_directory library_list _ _ _ name
             has_common_initial Hwf H) in Hget.
  cbn [get] in Hget. apply String.eqb_neq in Hne as Hneb. rewrite Hneb in Hget.
  unfold extended in Hget.
  destruct (assigned os version_directory library_list name
              (glob os version_directory)) as [|file more] eqn:Hassigned;
    [discriminate|].
  injection Hget as <-. split; [|discriminate].
  assert (Hfile : In file (assigned os version_directory library_list name
                             (glob os version_directory)))
    by (rewrite Hassigned; now left).
  unfold assigned in Hfile. apply in_map_iff in Hfile as (parts & _ & Hparts).
  apply filter_In in Hparts as [Hpack Hdest].
  apply packaged_In in Hpack as (_ & _ & Hreq).
  apply String.eqb_eq in Hdest. unfold destination in Hdest.
  unfold unrequested in Hreq.
  destruct parts as [|c0 [|c1 [|lib more']]]; try congruence.
  cbn [nth_error] in Hreq.
  destruct (String.eqb c1 "libs.ref"); [|congruence].
  subst lib. cbn [andb] in Hreq. now apply negb_false_iff in Hreq.
Qed.

Lemma collections_are_common_then_requested_libraries_witness :
  exists files rest,
    [("common", [str_path root ["sky130A"; "a.txt"]]);
     ("lib1", [str_path root ["sky130A"; "libs.ref"; "lib1"; "x.lef"]])]
    = ("common", files) :: rest
    /\ NoDup (map fst
                [("common", [str_path root ["sky130A"; "a.txt"]]);
                 ("lib1", [str_path root ["sky130A"; "libs.ref"; "lib1"; "x.lef"]])])
    /\ forall name fs, In (name, fs) rest ->
         name <> "common" /\ mem name ["lib1"; "missing"] = true /\ fs <> [].
Proof.
  apply (collections_are_common_then_requested_libraries nested_env root
           ["lib1"; "missing"]).
  - reflexivity.
  - reflexivity.
Defined.

(** X4: the allow-list counts as a set.  Two lists that hold the same
    names give the same partition, and [push] does the same with either
    when neither is empty. *)
Theorem allow_list_counts_as_a_set
    (os : Env) (pdk_root pdk_family version owner repository : string)
    (pre : bool) (l1 l2 : list string) :
  (forall x, mem x l1 = mem x l2) ->
  (forall version_directory,
     partition os version_directory l1 = partition os version_directory l2)
  /\ (l1 <> [] -> l2 <> [] ->
      push os pdk_root pdk_family version owner repository pre (Some l1) =
      push os pdk_root pdk_family version owner repository pre (Some l2)).
Proof.
  intros Hmem.
  assert (Hpart : forall version_directory,
            partition os version_directory l1 = partition os version_directory l2).
  { intros vd. unfold partition. now apply collect_mem. }
  split; [exact Hpart|].
  intros H1 H2. unfold push.
  destruct (lift (getitem (by_name os) pdk_family)) as [[family|e] t];
    [|reflexivity].
  cbn [bind]. destruct (github_token os) as [token|]; [|reflexivity].
  cbn [bind ret].
  replace (library_list family (Some l1)) with l1
    by (destruct l1; [contradiction | reflexivity]).
  replace (library_list family (Some l2)) with l2
    by (destruct l2; [contradiction | reflexivity]).
  now rewrite Hpart.
Qed.

Lemma allow_list_counts_as_a_set_witness :
  (forall version_directory,
     partition nested_env version_directory ["lib1"; "lib2"; "lib1"] =
     partition nested_env version_directory ["lib2"; "lib1"])
  /\ (["lib1"; "lib2"; "lib1"] <> [] -> ["lib2"; "lib1"] <> [] ->
      push nested_env "/pdk" "sky130" "v1" "owner" "repo" false
        (Some ["lib1"; "lib2"; "lib1"]) =
      push nested_env "/pdk" "sky130" "v1" "owner" "repo" false
        (Some ["lib2"; "lib1"])).
Proof.
  apply (allow_list_counts_as_a_set nested_env "/pdk" "sky130" "v1" "owner"
           "repo" false ["lib1"; "lib2"; "lib1"] ["lib2"; "lib1"]).
  intros x. unfold mem. simpl.
  destruct (String.eqb x "lib1"), (String.eqb x "lib2"); reflexivity.
Defined.

End PartitionProperties.

(** ** Tarball paths, member names and uploads *)

Module ArchiveFacts.
Import OsPath OsPathFacts PathFacts Py Build Tree DictFacts PartitionFacts.
Import PushFacts PackagedFacts EventFacts Placement PlacementFacts NameFacts.

(** The names of the members of the tarballs, file by file. *)
Lemma members_arcnames (os : Env) (version_directory : string)
    (files : list string) (members : list member) :
  Forall2 (member_of os version_directory) files members ->
  map arcname members = map (fun file => relpath file version_directory) files.
Proof.
  induction 1 as [|file m files members Hm _ IH]; simpl; [reflexivity|].
  destruct Hm as [Harc _]. now rewrite Harc, IH.
Qed.

Lemma concat_inj (p q : list string) :
  entry_ok p = true -> entry_ok q = true ->
  String.concat sep p = String.concat sep q -> p = q.
Proof.
  intros Hp Hq H.
  rewrite <- (split_concat p), <- (split_concat q);
    [now rewrite H | now apply entry_ok_file_names | now apply entry_ok_not_nil
    | now apply entry_ok_file_names | now apply entry_ok_not_nil].
Qed.

Lemma tarballs_app (a b : list event) :
  tarballs (a ++ b) = tarballs a ++ tarballs b.
Proof.
  induction a as [|[d|path members|cmd status] a IH]; simpl; try exact IH.
  - reflexivity.
  - now rewrite IH.
Qed.

Lemma tarballs_runs (events : list event) :
  (forall ev, In ev events -> exists cmd status, ev = Run cmd status) ->
  tarballs events = [].
Proof.
  induction events as [|ev events IH]; intros Hruns; [reflexivity|].
  destruct (Hruns ev (or_introl eq_refl)) as (cmd & status & ->). simpl.
  apply IH. intros ev Hev. apply Hruns. now right.
Qed.

Lemma tarballs_written (os : Env) (version_directory directory : string)
    (cs : dict (list string)) :
  tarballs (map (tarball_of os version_directory directory) cs) =
  map (tarball_path directory) cs.
Proof. induction cs as [|item cs IH]; simpl; [reflexivity | now rewrite IH]. Qed.

Lemma runs_app (a b : list event) : runs (a ++ b) = runs a ++ runs b.
Proof.
  induction a as [|[d|path members|cmd status] a IH]; simpl; try exact IH.
  - reflexivity.
  - now rewrite IH.
Qed.

Lemma runs_tarballs (os : Env) (version_directory directory : string)
    (cs : dict (list string)) :
  runs (map (tarball_of os version_directory directory) cs) = [].
Proof. induction cs as [|item cs IH]; simpl; [reflexivity | exact IH]. Qed.

(** The names of the members of all tarballs of a partition, in the order
    in which they are added. *)
Lemma partition_arcnames (os : Env) (version_directory directory : string)
    (libs : list string) (cs : dict (list string)) :
  partition os version_directory libs = Ok cs ->
  map arcname
    (members_of (map (tarball_of os version_directory directory) cs)) =
  map (fun file => relpath file version_directory) (flatten cs).
Proof.
  intros H.
  assert (Hread : forall file, In file (flatten cs) -> is_file os file = true).
  { intros file Hin.
    now destruct (partition_sound os _ _ _ H file Hin) as (_ & _ & _ & Hfile). }
  clear H. rewrite members_of_tarballs. unfold flatten in *.
  induction cs as [|[name files] cs IH]; [reflexivity|].
  cbn [map List.concat snd] in *. rewrite !map_app, IH.
  - f_equal. apply (members_arcnames os). apply tar_add_all_readable.
    intros file Hin. apply Hread. apply in_or_app. now left.
  - intros file Hin. apply Hread. apply in_or_app. now right.
Qed.

(** Without the version directory [push] stops before it makes anything. *)
Lemma push_without_directory
    (os : Env) (pdk_root pdk_family version owner repository : string)
    (pre : bool) (push_libraries : option (list string))
    (family : Family) (token : string) :
  get (by_name os) pdk_family = Some family ->
  github_token os = Some token ->
  isdir os (get_dir os version pdk_family pdk_root) = false ->
  push os pdk_root pdk_family version owner repository pre push_libraries =
  (Raise (FileNotFoundError ("Version " ++ version ++ " not found.")), []).
Proof.
  intros Hfamily Htoken Hisdir. unfold push, lift, getitem.
  rewrite Hfamily, Htoken. cbn [bind ret]. now rewrite Hisdir.
Qed.

End ArchiveFacts.

(** ** [push], further *)

Module PushProperties.
Import OsPath OsPathFacts PathFacts Py Build Tree DictFacts PartitionFacts.
Import PushFacts PackagedFacts EventFacts Placement PlacementFacts NameFacts.
Import ArchiveFacts Examples.

(** X5: with a registered family and a token, a version whose directory
    is not there makes [push] raise [FileNotFoundError] naming the
    version, before the tarball directory is made. *)
Theorem push_without_version_directory
    (os : Env) (pdk_root pdk_family version owner repository : string)
    (pre : bool) (push_libraries : option (list string))
    (family : Family) (token : string) :
  get (by_name os) pdk_family = Some family ->
  github_token os = Some token ->
  isdir os (get_dir os version pdk_family pdk_root) = false ->
  push os pdk_root pdk_family version owner repository pre push_libraries =
  (Raise (FileNotFoundError ("Version " ++ version ++ " not found.")), []).
Proof.
  intros Hfamily Htoken Hisdir. unfold push, lift, getitem.
  rewrite Hfamily, Htoken. cbn [bind ret]. now rewrite Hisdir.
Qed.

Lemma push_without_version_directory_witness :
  push (without_directories nested_env) "/pdk" "sky130" "v2" "owner" "repo"
    false None =
  (Raise (FileNotFoundError "Version v2 not found."), []).
Proof.
  apply (push_without_version_directory (without_directories nested_env)
           "/pdk" "sky130" "v2" "owner" "repo" false None sky130 "token").
  - reflexivity.
  - reflexivity.
  - reflexivity.
Defined.

(** X6: for a registered family, with a token, a version directory that
    is there and a partition that went through, when every upload exits
    with 0, [push] returns; it has made the tarball directory, then
    written one tarball per collection, then uploaded the tarballs one by
    one, all in the order of the collections, and every tarball is
    published. *)
Theorem push_uploads_every_tarball_in_order
    (os : Env) (pdk_root pdk_family version owner repository : string)
    (pre : bool) (push_libraries : option (list string))
    (family : Family) (token : string) (cs : dict (list string))
    (cmd_of : string * list string -> list string) :
  get (by_name os) pdk_family = Some family ->
  github_token os = Some token ->
  isdir os (get_dir os version pdk_family pdk_root) = true ->
  partition os (get_dir os version pdk_family pdk_root)
    (library_list family push_libraries) = Ok cs ->
  cmd_of = (fun item =>
              ghr_cmd owner repository token
                (release_body os family pdk_family version) pre
                (release_tag pdk_family version)
                (tarball_path (tarball_directory os version) item)) ->
  (forall item, In item cs -> returncode os (cmd_of item) = 0) ->
  push os pdk_root pdk_family version owner repository pre push_libraries =
  (Ok tt,
   Mkdirp (tarball_directory os version)
   :: map (tarball_of os (get_dir os version pdk_family pdk_root)
             (tarball_directory os version)) cs
   ++ map (fun item => Run (cmd_of item) 0) cs)
  /\ published
       (snd (push os pdk_root pdk_family version owner repository pre
               push_libraries)) = map cmd_of cs.
Proof.
  intros Hfamily Htoken Hisdir H -> Hzero.
  rewrite (push_partition_ok os pdk_root pdk_family version owner repository
             pre push_libraries family token Hfamily Htoken Hisdir cs H).
  cbn zeta. rewrite upload_ok.
  - cbn [fst snd]. split; [now rewrite map_map|].
    cbn [published]. rewrite published_app, published_tarballs. cbn [app].
    now rewrite published_ok, map_map.
  - intros t Ht. apply in_map_iff in Ht as (item & <- & Hitem).
    now apply Hzero.
Qed.

Lemma push_uploads_every_tarball_in_order_witness :
  let cmd_of := ghr_cmd "owner" "repo" "token"
                  "sky130 variants built using ciel" false "sky130-v1" in
  fst (push nested_env "/pdk" "sky130" "v1" "owner" "repo" false None) = Ok tt
  /\ published
       (snd (push nested_env "/pdk" "sky130" "v1" "owner" "repo" false None)) =
     [cmd_of "/tmp/ciel/0000/v1/common.tar.zst";
      cmd_of "/tmp/ciel/0000/v1/lib1.tar.zst";
      cmd_of "/tmp/ciel/0000/v1/lib2.tar.zst"].
Proof.
  intros cmd_of.
  destruct (push_uploads_every_tarball_in_order nested_env "/pdk" "sky130"
              "v1" "owner" "repo" false None sky130 "token"
              [("common", [str_path root ["sky130A"; "a.txt"]]);
               ("lib1", [str_path root ["sky130A"; "libs.ref"; "lib1"; "x.lef"]]);
               ("lib2", [str_path root ["sky130A"; "libs.ref"; "lib2"; "y.lef"]])]
              (fun item => cmd_of (tarball_path "/tmp/ciel/0000/v1" item)))
    as [Hrun Hpub].
  - reflexivity.
  - reflexivity.
  - reflexivity.
  - reflexivity.
  - reflexivity.
  - intros item _. reflexivity.
  - split; [now rewrite Hrun | exact Hpub].
Defined.

(** X7: past the partition of a well-formed version directory, [push]
    writes the tarballs of the collections to pairwise different paths:
    no tarball is overwritten by the next. *)
Theorem tarballs_are_written_to_distinct_paths
    (os : Env) (pdk_root pdk_family version owner repository : string)
    (pre : bool) (push_libraries : option (list string))
    (family : Family) (token : string) (cs : dict (list string)) :
  get (by_name os) pdk_family = Some family ->
  github_token os = Some token ->
  isdir os (get_dir os version pdk_family pdk_root) = true ->
  well_formed (glob os (get_dir os version pdk_family pdk_root)) = true ->
  partition os (get_dir os version pdk_family pdk_root)
    (library_list family push_libraries) = Ok cs ->
  tarballs (snd (push os pdk_root pdk_family version owner repository pre
                   push_libraries)) =
  map (tarball_path (tarball_directory os version)) cs
  /\ NoDup (tarballs
              (snd (push os pdk_root pdk_family version owner repository pre
                      push_libraries))).
Proof.
  intros Hfamily Htoken Hisdir Hwf H.
  assert (Hwritten :
    tarballs (snd (push os pdk_root pdk_family version owner repository pre
                     push_libraries)) =
    map (tarball_path (tarball_directory os version)) cs).
  { rewrite (push_partition_ok os pdk_root pdk_family version owner repository
               pre push_libraries family token Hfamily Htoken Hisdir cs H).
    cbn zeta. cbn [snd tarballs].
    rewrite tarballs_app, tarballs_written, (tarballs_runs (snd _)).
    - apply app_nil_r.
    - intros ev Hev. apply upload_events in Hev as (t & _ & ->). eauto. }
  split; [exact Hwritten|]. rewrite Hwritten.
  exact (tarball_paths_NoDup os _ _ _ cs Hwf H).
Qed.

Lemma tarballs_are_written_to_distinct_paths_witness :
  tarballs (snd (push nested_env "/pdk" "sky130" "v1" "owner" "repo" false
                   (Some ["lib1"]))) =
  map (tarball_path "/tmp/ciel/0000/v1")
    [("common", [str_path root ["sky130A"; "a.txt"]]);
     ("lib1", [str_path root ["sky130A"; "libs.ref"; "lib1"; "x.lef"]])]
  /\ NoDup (tarballs
              (snd (push nested_env "/pdk" "sky130" "v1" "owner" "repo" false
                      (Some ["lib1"])))).
Proof.
  apply (tarballs_are_written_to_distinct_paths nested_env "/pdk" "sky130" "v1"
           "owner" "repo" false (Some ["lib1"]) sky130 "token").
  - reflexivity.
  - reflexivity.
  - reflexivity.
  - reflexivity.
  - reflexivity.
Defined.

(** X8: past the partition of a well-formed version directory whose
    enumeration yields no entry twice, no two members of the tarballs
    that [push] writes have the same name, within one tarball or across
    tarballs: unpacking all of them into one directory overwrites
    nothing. *)
Theorem member_names_are_distinct
    (os : Env) (pdk_root pdk_family version owner repository : string)
    (pre : bool) (push_libraries : option (list string))
    (family : Family) (token : string) (cs : dict (list string)) :
  get (by_name os) pdk_family = Some family ->
  github_token os = Some token ->
  isdir os (get_dir os version pdk_family pdk_root) = true ->
  well_formed (glob os (get_dir os version pdk_family pdk_root)) = true ->
  NoDup (glob os (get_dir os version pdk_family pdk_root)) ->
  partition os (get_dir os version pdk_family pdk_root)
    (library_list family push_libraries) = Ok cs ->
  NoDup (map arcname
           (members_of
              (snd (push os pdk_root pdk_family version owner repository pre
                      push_libraries)))).
Proof.
  intros Hfamily Htoken Hisdir Hwf Hnd H.
  set (vd := get_dir os version pdk_family pdk_root) in *.
  set (libs := library_list family push_libraries) in *.
  rewrite (push_partition_ok os pdk_root pdk_family version owner repository
             pre push_libraries family token Hfamily Htoken Hisdir cs H).
  cbn zeta. cbn [snd members_of]. rewrite members_of_app.
  rewrite (members_of_runs (snd _)), app_nil_r.
  2:{ intros ev Hev. apply upload_events in Hev as (t & _ & ->). eauto. }
  fold vd. rewrite (partition_arcnames os vd _ libs cs H).
  pose proof (partition_flatten os vd libs cs Hwf H) as Hperm.
  apply (Permutation_NoDup
           (Permutation_sym
              (Permutation_map (fun file => relpath file vd) Hperm))).
  rewrite map_map.
  assert (Hok : forall parts, In parts (packaged os vd libs (glob os vd)) ->
                  entry_ok parts = true).
  { intros parts Hin. apply packaged_In in Hin as [Hglob _].
    exact (well_formed_In _ _ Hwf Hglob). }
  rewrite (map_ext_in _ (String.concat sep)).
  - apply NoDup_map_NoDup_ForallPairs; [|now apply NoDup_filter].
    intros p q Hp Hq. apply concat_inj; now apply Hok.
  - intros parts Hin. apply relpath_str_path. now apply Hok.
Qed.

Lemma member_names_are_distinct_witness :
  NoDup (map arcname
           (members_of
              (snd (push nested_env "/pdk" "sky130" "v1" "owner" "repo" false
                      None)))).
Proof.
  apply (member_names_are_distinct nested_env "/pdk" "sky130" "v1" "owner"
           "repo" false None sky130 "token"
           [("common", [str_path root ["sky130A"; "a.txt"]]);
            ("lib1", [str_path root ["sky130A"; "libs.ref"; "lib1"; "x.lef"]]);
            ("lib2", [str_path root ["sky130A"; "libs.ref"; "lib2"; "y.lef"]])]).
  - reflexivity.
  - reflexivity.
  - reflexivity.
  - reflexivity.
  - unfold nested_env, env, glob. cbn.
    repeat (constructor; [simpl; intuition discriminate|]). constructor.
  - reflexivity.
Defined.

(** X17: which tarballs [push] writes, and with which members, does not
    depend on the owner, the repository or the prerelease flag: these
    only reach the uploads. *)
Theorem tarballs_do_not_depend_on_the_release
    (os : Env) (pdk_root pdk_family version : string)
    (push_libraries : option (list string))
    (owner1 repository1 owner2 repository2 : string) (pre1 pre2 : bool) :
  tarballs (snd (push os pdk_root pdk_family version owner1 repository1 pre1
                   push_libraries)) =
  tarballs (snd (push os pdk_root pdk_family version owner2 repository2 pre2
                   push_libraries))
  /\ members_of (snd (push os pdk_root pdk_family version owner1 repository1
                        pre1 push_libraries)) =
     members_of (snd (push os pdk_root pdk_family version owner2 repository2
                        pre2 push_libraries)).
Proof.
  destruct (get (by_name os) pdk_family) as [family|] eqn:Hfamily.
  2:{ unfold push, lift, getitem. rewrite Hfamily. split; reflexivity. }
  destruct (github_token os) as [token|] eqn:Htoken.
  2:{ unfold push, lift, getitem. rewrite Hfamily, Htoken. split; reflexivity. }
  destruct (isdir os (get_dir os version pdk_family pdk_root)) eqn:Hisdir.
  2:{ rewrite !(push_without_directory os pdk_root pdk_family version _ _ _
                  push_libraries family token Hfamily Htoken Hisdir).
      split; reflexivity. }
  destruct (partition os (get_dir os version pdk_family pdk_root)
              (library_list family push_libraries)) as [cs|e] eqn:H.
  - rewrite !(push_partition_ok os pdk_root pdk_family version _ _ _
                push_libraries family token Hfamily Htoken Hisdir cs H).
    cbn zeta. cbn [snd tarballs members_of].
    rewrite !tarballs_app, !members_of_app.
    rewrite !(tarballs_runs (snd _)), !(members_of_runs (snd _));
      try (intros ev Hev; apply upload_events in Hev as (t & _ & ->); eauto).
    split; reflexivity.
  - rewrite !(push_partition_raises os pdk_root pdk_family version _ _ _
                push_libraries family token Hfamily Htoken Hisdir e H).
    split; reflexivity.
Qed.

End PushProperties.

(** ** [build], [build_cmd] and [push_cmd] *)

Module CommandFacts.
Import Py Build Tree DictFacts Placement Commands.

Lemma split_on_not_nil (c : ascii) (s : string) : split_on c s <> [].
Proof.
  induction s as [|x s IH]; simpl; [discriminate|].
  destruct (Ascii.eqb x c); [discriminate|].
  destruct (split_on c s); [contradiction | discriminate].
Qed.

(** Splitting gives one item more than there are separators. *)
Lemma split_on_length (c : ascii) (s : string) :
  List.length (split_on c s) = S (count_of c s).
Proof.
  induction s as [|x s IH]; simpl; [reflexivity|].
  destruct (Ascii.eqb x c); simpl; [now rewrite IH|].
  pose proof (split_on_not_nil c s) as Hne.
  destruct (split_on c s) as [|w ws]; [contradiction | exact IH].
Qed.

Lemma split_on_free (c : ascii) (s : string) :
  count_of c s = 0 -> split_on c s = [s].
Proof.
  induction s as [|x s IH]; simpl; [reflexivity|].
  destruct (Ascii.eqb x c); simpl; [discriminate|].
  intros H. now rewrite (IH H).
Qed.

Lemma split_on_char (c : ascii) (a b : string) :
  split_on c (a ++ String c b) = split_on c a ++ split_on c b.
Proof.
  induction a as [|x a IH]; simpl.
  - now rewrite Ascii.eqb_refl.
  - rewrite IH. destruct (Ascii.eqb x c); [reflexivity|].
    pose proof (split_on_not_nil c a) as Hne.
    destruct (split_on c a) as [|w ws]; [contradiction | reflexivity].
Qed.

(** An entry [name=path] unpacks into its two sides. *)
Lemma unpack_override (name path : string) :
  count_of "="%char name = 0 -> count_of "="%char path = 0 ->
  unpack_repo (override (name, path)) = inr (name, path).
Proof.
  intros Hn Hp. unfold unpack_repo, override. cbn [fst snd].
  change (name ++ "=" ++ path)%string with (name ++ String "="%char path)%string.
  now rewrite split_on_char, (split_on_free _ name Hn), (split_on_free _ path Hp).
Qed.

(** An entry unpacks exactly when it has one ["="]. *)
Lemma unpack_repo_spec (repo : string) :
  match unpack_repo repo with
  | inr _ => count_of "="%char repo = 1
  | inl e => e = ValueError (S (count_of "="%char repo))
             /\ count_of "="%char repo <> 1
  end.
Proof.
  unfold unpack_repo. pose proof (split_on_length "="%char repo) as Hlen.
  destruct (split_on "="%char repo) as [|a [|b [|c l]]]; simpl in Hlen;
    try (split; [now rewrite <- Hlen | lia]).
  lia.
Qed.

Lemma collect_repos_ok (os : BuildEnv) (repos : list string) :
  (forall repo, In repo repos -> count_of "="%char repo = 1) ->
  forall use_repos, exists d, collect_repos os use_repos repos = inr d.
Proof.
  induction repos as [|repo rest IH]; intros Hone use_repos; [now eexists|].
  cbn [collect_repos]. pose proof (unpack_repo_spec repo) as Hspec.
  destruct (unpack_repo repo) as [e|[name path]].
  - destruct Hspec as [_ Hne]. elim Hne. apply Hone. now left.
  - apply IH. intros r Hr. apply Hone. now right.
Qed.

Lemma collect_repos_malformed (os : BuildEnv) (before after : list string)
    (bad : string) :
  (forall repo, In repo before -> count_of "="%char repo = 1) ->
  count_of "="%char bad <> 1 ->
  forall use_repos,
    collect_repos os use_repos (before ++ bad :: after) =
    inl (ValueError (S (count_of "="%char bad))).
Proof.
  intros Hone Hbad. induction before as [|repo rest IH]; intros use_repos.
  - cbn [app collect_repos]. pose proof (unpack_repo_spec bad) as Hspec.
    destruct (unpack_repo bad) as [e|[name path]]; [|contradiction].
    now destruct Hspec as [-> _].
  - cbn [app collect_repos]. pose proof (unpack_repo_spec repo) as Hspec.
    destruct (unpack_repo repo) as [e|[name path]].
    + destruct Hspec as [_ Hne]. elim Hne. apply Hone. now left.
    + apply IH. intros r Hr. apply Hone. now right.
Qed.

Lemma get_app {V : Type} (a b : dict V) (k : string) :
  get (a ++ b) k = match get a k with Some v => Some v | None => get b k end.
Proof.
  induction a as [|[k0 v0] a IH]; simpl; [reflexivity|].
  destruct (String.eqb k k0); [reflexivity | exact IH].
Qed.

(** The dictionary of overrides holds, under each name, the absolute path
    of the last entry given for it. *)
Lemma collect_repos_last (os : BuildEnv) (pairs : list (string * string)) :
  (forall np, In np pairs ->
     count_of "="%char (fst np) = 0 /\ count_of "="%char (snd np) = 0) ->
  forall use_repos, exists d,
    collect_repos os use_repos (map override pairs) = inr d
    /\ forall name,
         get d name =
         match get (rev pairs) name with
         | Some path => Some (abspath os path)
         | None => get use_repos name
         end.
Proof.
  induction pairs as [|[n p] rest IH]; intros Hfree use_repos.
  - exists use_repos. split; reflexivity.
  - cbn [map collect_repos].
    destruct (Hfree (n, p) (or_introl eq_refl)) as [Hn Hp]. cbn [fst snd] in *.
    rewrite (unpack_override n p Hn Hp).
    destruct (IH (fun np H => Hfree np (or_intror H))
                (set use_repos n (abspath os p))) as (d & Hd & Hget).
    exists d. split; [exact Hd|]. intros name. rewrite Hget.
    cbn [rev]. rewrite get_app. destruct (get (rev rest) name); [reflexivity|].
    rewrite get_set. cbn [get]. now destruct (String.eqb name n).
Qed.

End CommandFacts.

Module CommandProperties.
Import OsPath Py Build Tree DictFacts PartitionFacts PushFacts EventFacts.
Import Placement ArchiveFacts Commands CommandFacts Examples.

(** X10: an entry of [use_repo_at] that does not have exactly one ["="]
    makes [build] raise the [ValueError] of the unpacking, at the first
    such entry, before the family is looked up: nothing is built, whether
    the family is registered or not. *)
Theorem build_rejects_malformed_override
    (os : BuildEnv) (pdk_root pdk_family version : string) (jobs : Z)
    (sram clear_build_artifacts : bool)
    (include_libraries : option (list string))
    (before after : list string) (bad : string) :
  (forall repo, In repo before -> count_of "="%char repo = 1) ->
  count_of "="%char bad <> 1 ->
  build os pdk_root pdk_family version jobs sram clear_build_artifacts
    include_libraries (Some (before ++ bad :: after)) =
  (Raised (ValueError (S (count_of "="%char bad))), []).
Proof.
  intros Hone Hbad. unfold build, use_repos_of.
  now rewrite (collect_repos_malformed os before after bad Hone Hbad).
Qed.

Lemma build_rejects_malformed_override_witness :
  build build_env "/pdk" "gf180mcu" "v1" 1 true true None
    (Some (["magic=../magic"] ++ "open_pdks" :: ["a=b=c"])) =
  (Raised (ValueError 1), []).
Proof.
  apply (build_rejects_malformed_override build_env "/pdk" "gf180mcu" "v1" 1
           true true None ["magic=../magic"] ["a=b=c"] "open_pdks").
  - intros repo [<-|[]]. reflexivity.
  - simpl. discriminate.
Defined.

(** X11: with overrides that unpack, or none, [build] of a family that is
    not registered raises [Exception] with the text
    [Unsupported PDK family '<family>'.], and the [build] of no family is
    called. *)
Theorem build_of_unregistered_family
    (os : BuildEnv) (pdk_root pdk_family version : string) (jobs : Z)
    (sram clear_build_artifacts : bool)
    (include_libraries use_repo_at : option (list string)) :
  get (families os) pdk_family = None ->
  (forall repos, use_repo_at = Some repos ->
     forall repo, In repo repos -> count_of "="%char repo = 1) ->
  build os pdk_root pdk_family version jobs sram clear_build_artifacts
    include_libraries use_repo_at =
  (Raised (Exception ("Unsupported PDK family '" ++ pdk_family ++ "'.")), []).
Proof.
  intros Hfamily Hone. unfold build, use_repos_of.
  destruct use_repo_at as [repos|].
  - destruct (collect_repos_ok os repos (Hone repos eq_refl) []) as [d ->].
    now rewrite Hfamily.
  - now rewrite Hfamily.
Qed.

Lemma build_of_unregistered_family_witness :
  build build_env "/pdk" "gf180mcu" "v1" 4 true false (Some ["lib1"])
    (Some ["magic=../magic"]) =
  (Raised (Exception "Unsupported PDK family 'gf180mcu'."), []).
Proof.
  apply (build_of_unregistered_family build_env "/pdk" "gf180mcu" "v1" 4 true
           false (Some ["lib1"]) (Some ["magic=../magic"])).
  - reflexivity.
  - intros repos [= <-] repo [<-|[]]. reflexivity.
Defined.

(** X12: for a registered family whose module imports, and overrides
    [name=path] without further ["="], [build] calls the [build] of the
    family once, with the arguments it was given and, as [using_repos],
    a dictionary that holds under each name the absolute path of the
    last override given for that name; it ends as that call ends.
    [sram] has no part in it. *)
Theorem build_passes_the_last_override
    (os : BuildEnv) (pdk_root pdk_family version : string) (jobs : Z)
    (sram clear_build_artifacts : bool)
    (include_libraries : option (list string))
    (pairs : list (string * string)) (family : Family) :
  get (families os) pdk_family = Some family ->
  import_module os pdk_family = None ->
  (forall np, In np pairs ->
     count_of "="%char (fst np) = 0 /\ count_of "="%char (snd np) = 0) ->
  exists using_repos,
    (forall name,
       get using_repos name = option_map (abspath os) (get (rev pairs) name))
    /\ build os pdk_root pdk_family version jobs sram clear_build_artifacts
         include_libraries (Some (map override pairs)) =
       let kwargs :=
         {| kw_pdk_root := pdk_root;
            kw_version := version;
            kw_jobs := jobs;
            kw_clear_build_artifacts := clear_build_artifacts;
            kw_include_libraries := include_libraries;
            kw_using_repos := using_repos |} in
       (match build_function os pdk_family kwargs with
        | Some text => Raised (FamilyError text)
        | None => Returned
        end, [(pdk_family, kwargs)]).
Proof.
  intros Hfamily Himport Hfree.
  destruct (collect_repos_last os pairs Hfree []) as (d & Hd & Hget).
  exists d. split.
  - intros name. rewrite Hget. now destruct (get (rev pairs) name).
  - unfold build, use_repos_of. now rewrite Hd, Hfamily, Himport.
Qed.

Lemma build_passes_the_last_override_witness :
  exists using_repos,
    (forall name,
       get using_repos name =
       option_map (abspath build_env)
         (get (rev [("magic", "a"); ("netgen", "b"); ("magic", "c")]) name))
    /\ build build_env "/pdk" "sky130" "v1" 2 false true None
         (Some ["magic=a"; "netgen=b"; "magic=c"]) =
       (Returned,
        [("sky130",
          {| kw_pdk_root := "/pdk";
             kw_version := "v1";
             kw_jobs := 2;
             kw_clear_build_artifacts := true;
             kw_include_libraries := None;
             kw_using_repos := using_repos |})]).
Proof.
  apply (build_passes_the_last_override build_env "/pdk" "sky130" "v1" 2 false
           true None [("magic", "a"); ("netgen", "b"); ("magic", "c")] sky130).
  - reflexivity.
  - reflexivity.
  - intros np [<-|[<-|[<-|[]]]]; split; reflexivity.
Defined.

(** X13: once the version is resolved, [build_cmd] ends as [build] ends
    and prints nothing: an exception of [build] leaves [build_cmd] as it
    is, without an exit status of its own.  [build] gets the resolved
    version, and [None] in place of an empty selection of libraries. *)
Theorem build_cmd_ends_as_build
    (os : BuildEnv) (include_libraries : option (list string)) (jobs : Z)
    (pdk_root pdk_family : string) (clear_build_artifacts : bool)
    (tool_metadata_file_path version : option string)
    (use_repo_at : option (list string)) (resolved : string) :
  resolve_version os version tool_metadata_file_path = inl resolved ->
  build_cmd os include_libraries jobs pdk_root pdk_family
    clear_build_artifacts tool_metadata_file_path version use_repo_at =
  (build os pdk_root pdk_family resolved jobs true clear_build_artifacts
     (if match include_libraries with Some [] => true | _ => false end
      then None else include_libraries)
     use_repo_at, [])
  /\ (get (families os) pdk_family = None -> use_repo_at = None ->
      build_cmd os include_libraries jobs pdk_root pdk_family
        clear_build_artifacts tool_metadata_file_path version use_repo_at =
      (Raised (Exception ("Unsupported PDK family '" ++ pdk_family ++ "'.")),
       [], [])).
Proof.
  intros H. unfold build_cmd. rewrite H. split.
  - now destruct include_libraries as [[|l ls]|].
  - intros Hfamily ->. unfold build, use_repos_of. now rewrite Hfamily.
Qed.

Lemma build_cmd_ends_as_build_witness :
  build_cmd build_env (Some []) 1 "/pdk" "gf180mcu" true None (Some "v1") None =
  (build build_env "/pdk" "gf180mcu" "v1" 1 true true None None, [])
  /\ (get (families build_env) "gf180mcu" = None ->
      @None (list string) = None ->
      build_cmd build_env (Some []) 1 "/pdk" "gf180mcu" true None (Some "v1")
        None =
      (Raised (Exception ("Unsupported PDK family '" ++ "gf180mcu" ++ "'.")),
       [], [])).
Proof.
  apply (build_cmd_ends_as_build build_env (Some []) 1 "/pdk" "gf180mcu" true
           None (Some "v1") None "v1").
  reflexivity.
Defined.

(** X15: when an upload fails, [push_cmd] prints the command line of
    that upload and its exit status and exits with -1; the tarballs stay
    written and the uploads before it stay published. *)
Theorem push_cmd_after_a_failed_upload
    (repr : string -> string) (os : Env) (owner repository : string)
    (pre : bool) (pdk_root pdk_family version : string)
    (push_libraries : option (list string))
    (family : Family) (token : string) (cs : dict (list string))
    (cmd_of : string -> list string)
    (before after : list string) (t : string) (status : nat) :
  get (by_name os) pdk_family = Some family ->
  github_token os = Some token ->
  isdir os (get_dir os version pdk_family pdk_root) = true ->
  partition os (get_dir os version pdk_family pdk_root)
    (library_list family push_libraries) = Ok cs ->
  cmd_of = ghr_cmd owner repository token
             (release_body os family pdk_family version) pre
             (release_tag pdk_family version) ->
  map (tarball_path (tarball_directory os version)) cs = before ++ t :: after ->
  (forall u, In u before -> returncode os (cmd_of u) = 0) ->
  returncode os (cmd_of t) = S status ->
  exists events,
    push_cmd repr os owner repository pre pdk_root pdk_family version
      push_libraries =
    (SystemExit (-1), events,
     [("[red]Failed to push version: Command '" ++ str_list repr (cmd_of t)
       ++ "' returned non-zero exit status "
       ++ NilEmpty.string_of_uint (Nat.to_uint (S status)) ++ ".")%string])
    /\ tarballs events = before ++ t :: after
    /\ published events = map cmd_of before
    /\ runs events = map cmd_of (before ++ [t]).
Proof.
  intros Hfamily Htoken Hisdir H -> Hsplit Hbefore Ht.
  unfold push_cmd.
  rewrite (push_partition_ok os pdk_root pdk_family version owner repository
             pre push_libraries family token Hfamily Htoken Hisdir cs H).
  cbn zeta. rewrite Hsplit.
  rewrite (upload_fails os owner repository token _ pre _ before after t status
             Hbefore Ht).
  cbn [fst snd]. eexists. split; [reflexivity|].
  assert (Hruns : forall l : list string,
            runs (map (fun u => Run (ghr_cmd owner repository token
                                       (release_body os family pdk_family version)
                                       pre (release_tag pdk_family version) u) 0) l)
            = map (ghr_cmd owner repository token
                     (release_body os family pdk_family version) pre
                     (release_tag pdk_family version)) l).
  { induction l as [|u l IH]; simpl; [reflexivity | now rewrite IH]. }
  split; [|split].
  - cbn [tarballs]. rewrite tarballs_app, tarballs_written, Hsplit.
    rewrite tarballs_runs; [apply app_nil_r|].
    intros ev Hev. apply in_app_or in Hev as [Hev|[<-|[]]]; [|eauto].
    apply in_map_iff in Hev as (u & <- & _). eauto.
  - cbn [published]. rewrite !published_app, published_tarballs, published_ok.
    cbn [published app]. now rewrite app_nil_r.
  - cbn [runs]. rewrite !runs_app, runs_tarballs, Hruns, map_app.
    reflexivity.
Qed.

Lemma push_cmd_after_a_failed_upload_witness :
  let os := env (Some "token") nested_entries nested_files
              (fails_on "/tmp/ciel/0000/v1/lib1.tar.zst") in
  let cmd_of := ghr_cmd "owner" "repo" "token"
                  "sky130 variants built using ciel" false "sky130-v1" in
  exists events,
    push_cmd (fun s => ("'" ++ s ++ "'")%string) os "owner" "repo" false "/pdk"
      "sky130" "v1" None =
    (SystemExit (-1), events,
     [("[red]Failed to push version: Command '"
       ++ str_list (fun s => ("'" ++ s ++ "'")%string)
            (cmd_of "/tmp/ciel/0000/v1/lib1.tar.zst")
       ++ "' returned non-zero exit status 1.")%string])
    /\ tarballs events =
       ["/tmp/ciel/0000/v1/common.tar.zst"]
       ++ "/tmp/ciel/0000/v1/lib1.tar.zst" :: ["/tmp/ciel/0000/v1/lib2.tar.zst"]
    /\ published events = map cmd_of ["/tmp/ciel/0000/v1/common.tar.zst"]
    /\ runs events =
       map cmd_of (["/tmp/ciel/0000/v1/common.tar.zst"]
                   ++ ["/tmp/ciel/0000/v1/lib1.tar.zst"]).
Proof.
  intros os cmd_of.
  apply (push_cmd_after_a_failed_upload (fun s => ("'" ++ s ++ "'")%string) os
           "owner" "repo" false "/pdk" "sky130" "v1" None sky130 "token"
           [("common", [str_path root ["sky130A"; "a.txt"]]);
            ("lib1", [str_path root ["sky130A"; "libs.ref"; "lib1"; "x.lef"]]);
            ("lib2", [str_path root ["sky130A"; "libs.ref"; "lib2"; "y.lef"]])]
           cmd_of
           ["/tmp/ciel/0000/v1/common.tar.zst"]
           ["/tmp/ciel/0000/v1/lib2.tar.zst"]
           "/tmp/ciel/0000/v1/lib1.tar.zst" 0).
  - reflexivity.
  - reflexivity.
  - reflexivity.
  - reflexivity.
  - reflexivity.
  - reflexivity.
  - intros u [<-|[]]. reflexivity.
  - reflexivity.
Defined.

End CommandProperties.
